(** * Answer synthesizer (synthesizer.py): embedding and verified properties

    The module under study turns a query and a list of tool result records
    into a formatted answer ([synthesize_answer]) and a short summary
    ([create_executive_summary]).  Python strings are sequences of Unicode
    code points, and the code measures and slices them ([len], [s[:800]]),
    so a text is modelled as a list of code points, not of bytes. *)

From Stdlib Require Import String Ascii NArith.
From stdpp Require Import base list gmap.

Local Open Scope N_scope.
Local Open Scope list_scope.

(** ** Text *)

Module Text.

(** A Python [str]: its code points, in order. *)
Abbreviation pystr := (list N).

(** Decoding of the UTF-8 bytes of a source literal into code points. *)
Fixpoint utf8 (bs : list N) : pystr :=
  match bs with
  | [] => []
  | b0 :: r0 =>
      if b0 <? 128 then b0 :: utf8 r0
      else if b0 <? 224 then
        match r0 with
        | b1 :: r1 => ((b0 - 192) * 64 + (b1 - 128)) :: utf8 r1
        | _ => []
        end
      else if b0 <? 240 then
        match r0 with
        | b1 :: b2 :: r2 =>
            ((b0 - 224) * 4096 + (b1 - 128) * 64 + (b2 - 128)) :: utf8 r2
        | _ => []
        end
      else
        match r0 with
        | b1 :: b2 :: b3 :: r3 =>
            ((b0 - 240) * 262144 + (b1 - 128) * 4096 + (b2 - 128) * 64
             + (b3 - 128)) :: utf8 r3
        | _ => []
        end
  end.

(** The only escape the module's literals use is backslash-n. *)
Fixpoint unescape (cs : pystr) : pystr :=
  match cs with
  | 92 :: 110 :: r => 10 :: unescape r
  | c :: r => c :: unescape r
  | [] => []
  end.

Definition bytes_of (s : string) : list N :=
  List.map N_of_ascii (list_ascii_of_string s).

(** [py "..."] is the text a Python literal with the same spelling denotes. *)
Definition py (s : string) : pystr := unescape (utf8 (bytes_of s)).
Arguments py _%_string : simpl never.

(** The double quote cannot be spelled inside a literal here. *)
Definition dq : pystr := [34].

(** [s.startswith(p)] *)
Fixpoint startswith (s p : pystr) : bool :=
  match p, s with
  | [], _ => true
  | _ :: _, [] => false
  | c :: p', d :: s' => (c =? d) && startswith s' p'
  end.

(** [needle in s] for two texts. *)
Fixpoint contains (needle s : pystr) : bool :=
  startswith s needle ||
  match s with
  | [] => false
  | _ :: s' => contains needle s'
  end.

(** [s.lower()] on the ASCII letters.  Python also lowers letters outside
    ASCII, always to code points outside ASCII except for U+212A (to k) and
    U+0130 (to i followed by U+0307).  The module only tests whether
    the lowered text contains "successfully created" or "generated", which
    have neither k nor i, so those tests see the same answer. *)
Definition lower_char (c : N) : N :=
  if (65 <=? c) && (c <=? 90) then c + 32 else c.

Definition lower (s : pystr) : pystr := List.map lower_char s.

(** [str.isspace] of one code point, the set [strip] removes. *)
Definition is_space (c : N) : bool :=
  ((9 <=? c) && (c <=? 13)) || ((28 <=? c) && (c <=? 32))
  || (c =? 133) || (c =? 160) || (c =? 5760)
  || ((8192 <=? c) && (c <=? 8202))
  || (c =? 8232) || (c =? 8233) || (c =? 8239) || (c =? 8287) || (c =? 12288).

Fixpoint lstrip (s : pystr) : pystr :=
  match s with
  | c :: s' => if is_space c then lstrip s' else s
  | [] => []
  end.

(** [s.strip()] *)
Definition strip (s : pystr) : pystr := rev (lstrip (rev (lstrip s))).

(** [s.split('\n')]: the lines of [s]; never the empty list. *)
Fixpoint split_lines (s : pystr) : list pystr :=
  match s with
  | [] => [[]]
  | c :: s' =>
      if c =? 10 then [] :: split_lines s'
      else match split_lines s' with
           | l :: ls => (c :: l) :: ls
           | [] => [[c]]
           end
  end.

(** [sep.join(parts)] *)
Fixpoint join (sep : pystr) (parts : list pystr) : pystr :=
  match parts with
  | [] => []
  | [p] => p
  | p :: ps => p ++ sep ++ join sep ps
  end.

(** [str(n)] for a non-negative integer. *)
Fixpoint digits (d : Decimal.uint) : pystr :=
  match d with
  | Decimal.Nil => []
  | Decimal.D0 d => 48 :: digits d
  | Decimal.D1 d => 49 :: digits d
  | Decimal.D2 d => 50 :: digits d
  | Decimal.D3 d => 51 :: digits d
  | Decimal.D4 d => 52 :: digits d
  | Decimal.D5 d => 53 :: digits d
  | Decimal.D6 d => 54 :: digits d
  | Decimal.D7 d => 55 :: digits d
  | Decimal.D8 d => 56 :: digits d
  | Decimal.D9 d => 57 :: digits d
  end.

Definition str_of_nat (n : nat) : pystr := digits (Nat.to_uint n).

End Text.
Import Text.

(** ** Values, results of calls, tool result records *)

(** What a record's [output] can hold, as far as the module can tell the
    values apart. *)
Inductive pyval : Type :=
| VStr (s : pystr)
    (** a [str] *)
| VDict (keys : list pystr) (shown : pystr)
    (** a [dict] with text keys: its keys in order, and the text [str()] and
        an f-string give for it; the module never reads its values *)
| VOther (shown : pystr).
    (** a number, a boolean or [None]: a value with no [len()] and none of
        the methods of [str]; [shown] is the text [str()] gives for it *)

#[global] Instance pyval_eq_dec : EqDecision pyval.
Proof. solve_decision. Defined.

(** A call either returns a value or raises an exception; which exception
    it is plays no part in what follows and is not recorded. *)
Inductive outcome (A : Type) : Type :=
| Returns (a : A)
| Raises.
Arguments Returns {A} a.
Arguments Raises {A}.

#[global] Instance outcome_ret : MRet outcome := fun A a => Returns a.
#[global] Instance outcome_bind : MBind outcome := fun A B f m =>
  match m with
  | Returns a => f a
  | Raises => Raises
  end.

(** One entry of [execution_results]: a dict read with [.get] at the keys
    'tool', 'status' and 'output'; [None] is an absent key. *)
Record record : Type := Result {
  tool : option pystr;
  status : option pystr;
  output : option pyval
}.

(** [len(v)] *)
Definition py_len (v : pyval) : outcome nat :=
  match v with
  | VStr s => Returns (length s)
  | VDict keys _ => Returns (length keys)
  | VOther _ => Raises
  end.

(** [needle in v]: a substring test on a text, a key test on a dict. *)
Definition py_in (needle : pystr) (v : pyval) : outcome bool :=
  match v with
  | VStr s => Returns (contains needle s)
  | VDict keys _ => Returns (bool_decide (needle ∈ keys))
  | VOther _ => Raises
  end.

(** [v.startswith(p)] *)
Definition py_startswith (v : pyval) (p : pystr) : outcome bool :=
  match v with
  | VStr s => Returns (startswith s p)
  | _ => Raises
  end.

(** [v + t] for a text [t] *)
Definition py_add (v : pyval) (t : pystr) : outcome pystr :=
  match v with
  | VStr s => Returns (s ++ t)
  | _ => Raises
  end.

(** [v[:n]] *)
Definition py_slice_to (n : nat) (v : pyval) : outcome pystr :=
  match v with
  | VStr s => Returns (take n s)
  | _ => Raises
  end.

(** [v.lower()] *)
Definition py_lower (v : pyval) : outcome pystr :=
  match v with
  | VStr s => Returns (lower s)
  | _ => Raises
  end.

(** [v.split('\n')] *)
Definition py_split_lines (v : pyval) : outcome (list pystr) :=
  match v with
  | VStr s => Returns (split_lines s)
  | _ => Raises
  end.

(** [str(v)], also what an f-string puts for [{v}]. *)
Definition py_str (v : pyval) : pystr :=
  match v with
  | VStr s => s
  | VDict _ shown => shown
  | VOther shown => shown
  end.

(** ** The outcome filter (synthesizer.py, lines 26 to 42) *)

(** [result.get('tool', 'unknown')] *)
Definition tool_name (result : record) : pystr :=
  default (py "unknown") (tool result).

(** [result.get('output', '')] *)
Definition raw_output (result : record) : pyval :=
  default (VStr []) (output result).

(** [result.get('status') == 'success'] *)
Definition succeeded (result : record) : Prop :=
  status result = Some (py "success").

#[global] Instance succeeded_dec result : Decision (succeeded result).
Proof. unfold succeeded. apply _. Defined.

(** The body of the first loop of [synthesize_answer]. *)
Definition store_output (outputs : gmap pystr pyval) (result : record)
  : gmap pystr pyval :=
  if decide (succeeded result) then
    match raw_output result with
    | VDict keys shown => <[tool_name result := VDict keys shown]> outputs
    | VStr s =>
        if bool_decide (s ≠ []) && negb (startswith s (py "Error:"))
        then <[tool_name result := VStr s]> outputs
        else outputs
    | VOther shown => <[tool_name result := VStr shown]> outputs
    end
  else outputs.

Definition collect_outputs (execution_results : list record)
  : gmap pystr pyval :=
  foldl store_output ∅ execution_results.

(** ** The section synthesizers (lines 195 to 274) *)

(** A [for] loop whose body may raise. *)
Fixpoint for_each {S A : Type} (body : S -> A -> outcome S) (s : S) (l : list A)
  : outcome S :=
  match l with
  | [] => mret s
  | x :: l' => s' ← body s x; for_each body s' l'
  end.

Definition _synthesize_arxiv_papers (query : pystr) (arxiv_output : pyval)
  : outcome pystr :=
  mock ← py_in (py "Sample Paper") arxiv_output;
  if mock : bool then
    mret (py "Based on the academic research related to **" ++ dq ++ query ++ dq
          ++ py "**, several important papers have been published:\n\n**Research Themes:**\n- The field shows active research with multiple recent publications\n- Key areas of focus include theoretical foundations and practical applications\n- Current work explores novel approaches and methodologies\n\n**Note:** This is a demonstration of the ArXiv integration. In a live system with a valid ArXiv API connection, you would see actual paper titles, authors, abstracts, and publication details from the research database.\n\nTo access real academic papers, ensure:\n1. Internet connectivity is available\n2. The ArXiv API is accessible\n3. Your query matches indexed research topics")
  else
    lines ← py_split_lines arxiv_output;
    let summary := py "Found relevant academic research on **" ++ query ++ py "**:\n\n" in
    mret (foldl (fun summary line =>
                   if startswith (strip line) (py "**")
                   then summary ++ py "- " ++ strip line ++ py "\n"
                   else summary)
                summary lines).

Definition _synthesize_news (query : pystr) (news_output : pyval)
  : outcome pystr :=
  none ← py_in (py "No recent news") news_output;
  short ← (if none : bool then mret true
           else n ← py_len news_output; mret (n <? 100)%nat);
  if short : bool then
    mret (py "No recent news articles were found specifically about " ++ query
          ++ py ". This could mean:\n- The topic is highly specialized\n- No major news coverage in recent days\n- Try a broader search term for more results")
  else
    lines ← py_split_lines news_output;
    let summary := py "Recent news coverage on **" ++ query ++ py "**:\n\n" in
    mret (foldl (fun summary line =>
                   if contains (py "**Article") line || contains (py "**Title") line
                   then summary ++ py "- " ++ strip line ++ py "\n"
                   else summary)
                summary lines).

(** [key in outputs] *)
Definition has_key (key : pystr) (outputs : gmap pystr pyval) : bool :=
  bool_decide (is_Some (outputs !! key)).

Definition _generate_key_insights (query : pystr) (outputs : gmap pystr pyval)
  : pystr :=
  let insights := [] in
  let insights :=
    if has_key (py "wikipedia_search") outputs
    then insights ++ [py "✓ **Foundational knowledge** about " ++ query
                      ++ py " has been retrieved from Wikipedia"]
    else insights in
  let insights :=
    if has_key (py "arxiv_summarizer") outputs
    then insights ++ [py "✓ **Academic research papers** have been identified and summarized"]
    else insights in
  let insights :=
    if has_key (py "news_fetcher") outputs
    then insights ++ [py "✓ **Current news** and recent developments have been analyzed"]
    else insights in
  let insights :=
    if has_key (py "sentiment_analyzer") outputs
    then insights ++ [py "✓ **Sentiment analysis** provides insights into public perception"]
    else insights in
  let insights :=
    if has_key (py "qa_engine") outputs
    then insights ++ [py "✓ **Direct answer** has been generated based on available knowledge"]
    else insights in
  match insights with
  | [] =>
      py "Based on the available information, here's what we know about **"
      ++ query
      ++ py "**: The system has gathered relevant data from multiple sources to provide you with a comprehensive overview."
  | _ =>
      let result := py "**Information Sources:**\n" in
      let result := result ++ join (py "\n") insights in
      result ++ py "\n\nThis comprehensive analysis of **" ++ query
      ++ py "** combines information from multiple authoritative sources to give you a complete picture."
  end.

(** ** The generated-resource scan (lines 95 to 111 and 163 to 186) *)

(** The body of the loop over the raw records. *)
Definition scan_record (files_generated : list (pystr * pyval)) (result : record)
  : outcome (list (pystr * pyval)) :=
  let out := raw_output result in
  low ← py_lower out;
  if contains (py "successfully created") low || contains (py "generated") low
  then
    png ← py_in (py ".png") out;
    chart ← (if png : bool then mret true else py_in (py "Chart") out);
    if chart : bool then mret (files_generated ++ [(py "chart", out)])
    else
      pdf ← py_in (py ".pdf") out;
      doc ← (if pdf : bool then mret true else py_in (py "PDF") out);
      if doc : bool then mret (files_generated ++ [(py "pdf", out)])
      else mret files_generated
  else mret files_generated.

Definition scan_generated (execution_results : list record)
  : outcome (list (pystr * pyval)) :=
  for_each scan_record [] execution_results.

(** The loop that lists the files. *)
Definition list_file (answer : pystr) (file : pystr * pyval) : pystr :=
  let '(file_type, file_info) := file in
  if decide (file_type = py "chart")
  then answer ++ py "📈 " ++ py_str file_info ++ py "\n"
  else answer ++ py "📄 " ++ py_str file_info ++ py "\n".

Definition add_generated (files_generated : list (pystr * pyval)) (answer : pystr)
  : pystr :=
  match files_generated with
  | [] => answer
  | _ =>
      let answer := answer ++ py "## 📊 Generated Resources\n\n" in
      let answer := foldl list_file answer files_generated in
      answer ++ py "\n"
  end.

(** ** The answer composer (lines 44 to 192) *)

Definition NO_RESULTS : pystr :=
  py "❌ **No results were generated.** The query could not be processed successfully.".

(** Line 55: [len(qa_answer) > 300 and not qa_answer.startswith("I'm sorry")] *)
Definition is_substantial (qa_answer : pyval) : outcome bool :=
  n ← py_len qa_answer;
  if (300 <? n)%nat
  then sorry ← py_startswith qa_answer (py "I'm sorry"); mret (negb sorry)
  else mret false.

(** Lines 67 to 70. *)
Definition qa_arxiv (outputs : gmap pystr pyval) (st : pystr * bool)
  : outcome (pystr * bool) :=
  let '(answer, has_sources) := st in
  match outputs !! py "arxiv_summarizer" with
  | Some papers =>
      n ← py_len papers;
      if (50 <? n)%nat then
        let answer := answer ++ py "### 🔬 Academic Papers Found\n\n" in
        t ← py_add papers (py "\n\n");
        mret (answer ++ t, true)
      else mret (answer, has_sources)
  | None => mret (answer, has_sources)
  end.

(** Lines 73 to 82. *)
Definition qa_wikipedia (outputs : gmap pystr pyval) (st : pystr * bool)
  : outcome (pystr * bool) :=
  let '(answer, has_sources) := st in
  match outputs !! py "wikipedia_search" with
  | Some wiki_text =>
      n ← py_len wiki_text;
      if (50 <? n)%nat then
        let answer := answer ++ py "### 📖 Wikipedia Background\n\n" in
        if (800 <? n)%nat then
          head ← py_slice_to 800 wiki_text;
          let answer := answer ++ head ++ py "...\n\n" in
          let answer :=
            answer ++ py "<details><summary>Show full Wikipedia content</summary>\n\n"
            ++ py_str wiki_text ++ py "\n\n</details>\n\n" in
          mret (answer, true)
        else
          t ← py_add wiki_text (py "\n\n");
          mret (answer ++ t, true)
      else mret (answer, has_sources)
  | None => mret (answer, has_sources)
  end.

(** Lines 85 to 88. *)
Definition qa_news (outputs : gmap pystr pyval) (st : pystr * bool)
  : outcome (pystr * bool) :=
  let '(answer, has_sources) := st in
  match outputs !! py "news_fetcher" with
  | Some news =>
      n ← py_len news;
      if (50 <? n)%nat then
        let answer := answer ++ py "### 📰 Recent News Articles\n\n" in
        t ← py_add news (py "\n\n");
        mret (answer ++ t, true)
      else mret (answer, has_sources)
  | None => mret (answer, has_sources)
  end.

(** Lines 57 to 116: the QA engine's text is the answer. *)
Definition qa_primary (execution_results : list record)
    (outputs : gmap pystr pyval) (qa_answer : pyval) (answer : pystr)
  : outcome pystr :=
  t ← py_add qa_answer (py "\n\n");
  let answer := answer ++ t in
  let answer := answer ++ py "---\n\n" in
  let answer := answer ++ py "## 📚 Factual Sources Used (Verify Claims Above)\n\n" in
  let answer := answer ++ py "*The AI answer above is grounded in the following factual sources. Cross-reference to verify accuracy:*\n\n" in
  let has_sources := false in
  st ← qa_arxiv outputs (answer, has_sources);
  st ← qa_wikipedia outputs st;
  st ← qa_news outputs st;
  let '(answer, has_sources) := st in
  let answer :=
    if has_sources : bool then answer
    else answer ++ py "*Note: This answer is based on the LLM's general knowledge. No specific research papers or news articles were retrieved for verification.*\n\n" in
  files_generated ← scan_generated execution_results;
  let answer := add_generated files_generated answer in
  let answer := answer ++ py "---\n\n" in
  mret (answer ++ py "✅ **Analysis Complete** | Comprehensive answer generated using AI with supporting research from multiple sources.\n").

(** Lines 127 to 133. *)
Definition fb_wikipedia (outputs : gmap pystr pyval) (st : pystr * bool)
  : outcome (pystr * bool) :=
  let '(answer, has_content) := st in
  match outputs !! py "wikipedia_search" with
  | Some wiki_output =>
      n ← py_len wiki_output;
      if (50 <? n)%nat then
        let answer := answer ++ py "## 📚 Background\n\n" in
        t ← py_add wiki_output (py "\n\n");
        mret (answer ++ t, true)
      else mret (answer, has_content)
  | None => mret (answer, has_content)
  end.

(** Lines 136 to 143. *)
Definition fb_arxiv (user_query : pystr) (outputs : gmap pystr pyval)
    (st : pystr * bool) : outcome (pystr * bool) :=
  let '(answer, has_content) := st in
  match outputs !! py "arxiv_summarizer" with
  | Some arxiv_output =>
      found ← py_in (py "Found") arxiv_output;
      papers ← (if found : bool then py_in (py "papers") arxiv_output
                else mret false);
      if papers : bool then
        let answer := answer ++ py "## 🔬 Academic Research\n\n" in
        t ← _synthesize_arxiv_papers user_query arxiv_output;
        let answer := answer ++ t in
        mret (answer ++ py "\n\n", true)
      else mret (answer, has_content)
  | None => mret (answer, has_content)
  end.

(** Lines 146 to 152. *)
Definition fb_news (user_query : pystr) (outputs : gmap pystr pyval)
    (st : pystr * bool) : outcome (pystr * bool) :=
  let '(answer, has_content) := st in
  match outputs !! py "news_fetcher" with
  | Some news_output =>
      n ← py_len news_output;
      if (50 <? n)%nat then
        let answer := answer ++ py "## 📰 Recent Developments\n\n" in
        t ← _synthesize_news user_query news_output;
        let answer := answer ++ t in
        mret (answer ++ py "\n\n", true)
      else mret (answer, has_content)
  | None => mret (answer, has_content)
  end.

(** Lines 155 to 160. *)
Definition fb_sentiment (outputs : gmap pystr pyval) (st : pystr * bool)
  : outcome (pystr * bool) :=
  let '(answer, has_content) := st in
  match outputs !! py "sentiment_analyzer" with
  | Some sentiment_output =>
      n ← py_len sentiment_output;
      if (20 <? n)%nat then
        let answer := answer ++ py "## 💭 Sentiment Analysis\n\n" in
        t ← py_add sentiment_output (py "\n\n");
        mret (answer ++ t, true)
      else mret (answer, has_content)
  | None => mret (answer, has_content)
  end.

(** Lines 124 to 192: synthesis from the other tools. *)
Definition fallback (user_query : pystr) (execution_results : list record)
    (outputs : gmap pystr pyval) (answer : pystr) : outcome pystr :=
  let has_content := false in
  st ← fb_wikipedia outputs (answer, has_content);
  st ← fb_arxiv user_query outputs st;
  st ← fb_news user_query outputs st;
  st ← fb_sentiment outputs st;
  let '(answer, has_content) := st in
  files_generated ← scan_generated execution_results;
  let answer :=
    if has_content : bool
    then answer ++ py "## 🎯 Key Insights\n\n"
         ++ _generate_key_insights user_query outputs ++ py "\n\n"
    else answer in
  let answer := add_generated files_generated answer in
  let answer := answer ++ py "---\n\n" in
  mret (answer ++ py "✅ **Analysis Complete** | Information gathered from multiple sources and synthesized for your query.\n").

(** [plan] is accepted and never read. *)
Definition synthesize_answer (user_query : pystr)
    (execution_results : list record) (plan : gmap pystr pyval)
  : outcome pystr :=
  let outputs := collect_outputs execution_results in
  if decide (outputs = ∅) then mret NO_RESULTS
  else
    let answer := py "# 📖 Answer to: " ++ user_query ++ py "\n\n" in
    match outputs !! py "qa_engine" with
    | Some qa_answer =>
        substantial ← is_substantial qa_answer;
        if substantial : bool
        then qa_primary execution_results outputs qa_answer answer
        else
          let answer := answer ++ py "## 💡 Quick Answer\n\n" in
          let answer := answer ++ py_str qa_answer ++ py "\n\n" in
          fallback user_query execution_results outputs (answer ++ py "---\n\n")
    | None => fallback user_query execution_results outputs answer
    end.

(** ** The summary composer (lines 277 to 310) *)

Definition successful_tools (execution_results : list record) : list pystr :=
  (fun r => default [] (tool r)) <$> filter succeeded execution_results.

Definition create_executive_summary (user_query : pystr)
    (execution_results : list record) : pystr :=
  let tools := successful_tools execution_results in
  match tools with
  | [] => py "No results could be generated for this query."
  | _ =>
      let summary := py "Regarding **" ++ user_query ++ py "**: " in
      let summary :=
        if bool_decide (py "qa_engine" ∈ tools)
        then summary ++ py "A direct answer has been provided based on available knowledge. "
        else summary in
      let summary :=
        if bool_decide (py "wikipedia_search" ∈ tools)
        then summary ++ py "Background information has been retrieved from Wikipedia. "
        else summary in
      let summary :=
        if bool_decide (py "arxiv_summarizer" ∈ tools)
        then summary ++ py "Academic research papers have been identified and summarized. "
        else summary in
      let summary :=
        if bool_decide (py "news_fetcher" ∈ tools)
        then summary ++ py "Recent news articles have been analyzed. "
        else summary in
      summary ++ py "Total of " ++ str_of_nat (length tools)
      ++ py " information sources consulted."
  end.

(** ** The request handler (api.py, lines 67 to 106) *)

(** What [orchestrator.process_query] hands back: a dict that the handler
    reads with [.get] at the keys 'execution_results', 'plan' and 'context';
    [None] is an absent key. *)
Record orchestration : Type := Orchestration {
  o_execution_results : option (list record);
  o_plan : option (gmap pystr pyval);
  o_context : option (gmap pystr pyval)
}.

(** [result.get("plan", [])]: the plan, or the empty list when there is
    none. *)
Inductive plan_field : Type :=
| PlanOf (p : gmap pystr pyval)
| PlanEmptyList.

(** The body of the reply, key by key. *)
Record reply : Type := Reply {
  reply_status : pystr;
  reply_query : pystr;
  reply_plan : plan_field;
  reply_execution_results : list record;
  reply_final_answer : pystr;
  reply_summary : pystr;
  reply_context : gmap pystr pyval
}.

(** The handler returns the body, or raises [HTTPException] with status
    code 500; the detail of the exception, the message of the one caught, is
    not recorded. *)
Inductive http : Type :=
| Ok200 (body : reply)
| Error500.

(** The orchestrator is created outside these sources: its method is an
    argument, called with the query and [max_iterations=3]. *)
Definition process_query (orchestrate : pystr → nat → outcome orchestration)
    (query : pystr) : http :=
  let attempt :=
    result ← orchestrate query 3%nat;
    let execution_results := default [] (o_execution_results result) in
    let plan := default ∅ (o_plan result) in
    final_answer ← synthesize_answer query execution_results plan;
    let summary := create_executive_summary query execution_results in
    mret (Reply (py "success") query
            (match o_plan result with Some p => PlanOf p | None => PlanEmptyList end)
            (default [] (o_execution_results result))
            final_answer summary
            (default ∅ (o_context result))) in
  match attempt with
  | Returns body => Ok200 body
  | Raises => Error500
  end.

(** * Vocabulary of the statements *)

(** [needle] occurs in [s] as a contiguous run. *)
Definition occurs (needle s : pystr) : Prop :=
  ∃ pre post, s = pre ++ needle ++ post.

(** A record [{tool, status: "success", output: text}], and the same with
    status "failure". *)
Definition ok_record (tool_id : string) (text : pystr) : record :=
  Result (Some (py tool_id)) (Some (py "success")) (Some (VStr text)).

Definition failed_record (tool_id : string) (text : pystr) : record :=
  Result (Some (py tool_id)) (Some (py "failure")) (Some (VStr text)).

(** The outputs the filter lets through: any mapping, any other value, and a
    text that is neither empty nor opened by the error marker. *)
Definition usable (v : pyval) : Prop :=
  match v with
  | VStr s => s ≠ [] ∧ ¬ py "Error:" `prefix_of` s
  | VDict _ _ | VOther _ => True
  end.

(** What ends up in the mapping for a value that is let through. *)
Definition as_stored (v : pyval) : pyval :=
  match v with
  | VOther shown => VStr shown
  | _ => v
  end.

(** The record passes the outcome filter. *)
Definition kept (r : record) : Prop := succeeded r ∧ usable (raw_output r).

(** The record's output, as the code reads it, is a text. *)
Definition text_output (r : record) : Prop := ∃ s, raw_output r = VStr s.

(** Every value of the mapping is a text. *)
Definition text_map (outputs : gmap pystr pyval) : Prop :=
  ∀ k v, outputs !! k = Some v → ∃ s, v = VStr s.

(** The QA-primary case: the filtered outputs hold a text for the QA engine
    that is longer than 300 characters and is not a refusal. *)
Definition qa_primary_case (rs : list record) (qa : pystr) : Prop :=
  collect_outputs rs !! py "qa_engine" = Some (VStr qa)
  ∧ (300 < length qa)%nat
  ∧ ¬ py "I'm sorry" `prefix_of` qa.

(** What the scan appends for a record whose output is the text [s]. *)
Definition found (s : pystr) : list (pystr * pyval) :=
  if contains (py "successfully created") (lower s)
     || contains (py "generated") (lower s)
  then
    if contains (py ".png") s || contains (py "Chart") s
    then [(py "chart", VStr s)]
    else if contains (py ".pdf") s || contains (py "PDF") s
         then [(py "pdf", VStr s)]
         else []
  else [].

(** What the scan collects over records whose outputs are texts. *)
Definition found_all (rs : list record) : list (pystr * pyval) :=
  flat_map (fun r => found (py_str (raw_output r))) rs.

(** The lines of the resource list, one per file. *)
Definition file_lines (files : list (pystr * pyval)) : pystr :=
  flat_map (list_file []) files.

(** The fixed texts the composer puts around what it copies: the title
    line (line 48), the opening of the sources section (lines 58 to 62),
    the note of line 91, the two footers (lines 113 to 114 and 189 to
    190) and the opening of the collapsible block (line 79). *)
Definition TITLE (user_query : pystr) : pystr :=
  py "# 📖 Answer to: " ++ user_query ++ py "\n\n".

Definition QA_HEAD : pystr :=
  py "---\n\n" ++ py "## 📚 Factual Sources Used (Verify Claims Above)\n\n"
  ++ py "*The AI answer above is grounded in the following factual sources. Cross-reference to verify accuracy:*\n\n".

Definition QA_NOTE : pystr :=
  py "*Note: This answer is based on the LLM's general knowledge. No specific research papers or news articles were retrieved for verification.*\n\n".

Definition QA_FOOT : pystr :=
  py "---\n\n" ++ py "✅ **Analysis Complete** | Comprehensive answer generated using AI with supporting research from multiple sources.\n".

Definition FB_FOOT : pystr :=
  py "---\n\n" ++ py "✅ **Analysis Complete** | Information gathered from multiple sources and synthesized for your query.\n".

Definition DETAILS_OPEN : pystr :=
  py "<details><summary>Show full Wikipedia content</summary>\n\n".

(** A block that shows the text stored under [key] below [heading] when it
    is longer than [n] characters: what it appends, and the flag after it. *)
Definition shown_if_longer (outputs : gmap pystr pyval) (key : pystr) (n : nat)
    (heading c : pystr) (flag flag' : bool) : Prop :=
  (c = [] ∧ flag' = flag
   ∧ ∀ s, outputs !! key = Some (VStr s) → (length s ≤ n)%nat)
  ∨ ∃ s, outputs !! key = Some (VStr s) ∧ (n < length s)%nat
         ∧ c = heading ++ s ++ py "\n\n" ∧ flag' = true.

(** The same for the Wikipedia block of the QA path, which cuts a text of
    more than 800 characters and repeats it in full. *)
Definition wiki_shown (outputs : gmap pystr pyval) (c : pystr)
    (flag flag' : bool) : Prop :=
  (c = [] ∧ flag' = flag
   ∧ ∀ s, outputs !! py "wikipedia_search" = Some (VStr s) → (length s ≤ 50)%nat)
  ∨ ∃ s, outputs !! py "wikipedia_search" = Some (VStr s) ∧ (50 < length s)%nat
         ∧ flag' = true
         ∧ (((length s ≤ 800)%nat
             ∧ c = py "### 📖 Wikipedia Background\n\n" ++ s ++ py "\n\n")
            ∨ ((800 < length s)%nat
               ∧ c = py "### 📖 Wikipedia Background\n\n" ++ take 800 s
                     ++ py "...\n\n" ++ DETAILS_OPEN ++ s
                     ++ py "\n\n</details>\n\n")).

(** The two headings the claims speak of, without their line ends. *)
Definition KEY_INSIGHTS : pystr := py "## 🎯 Key Insights".

Definition FACTUAL_HEADING : pystr :=
  py "## 📚 Factual Sources Used (Verify Claims Above)".

(** The text is empty or closes with a newline. *)
Definition ends_nl (c : pystr) : Prop := c = [] ∨ ∃ c', c = c' ++ [10].

(** [H] does not occur in the piece, and the piece closes its line. *)
Definition tidy (H c : pystr) : Prop := ¬ occurs H c ∧ ends_nl c.

(** No record's output text contains [H]. *)
Definition outputs_free (H : pystr) (rs : list record) : Prop :=
  Forall (fun r => ¬ occurs H (py_str (raw_output r))) rs.

(** Some proper prefix of [needle] closes the literal [lit]. *)
Definition overlaps_end (needle lit : pystr) : bool :=
  existsb (fun n => bool_decide (take n needle `suffix_of` lit))
          (seq 1 (length needle - 1)).

(** The literal [tail] opens with a character that [needle] does not have. *)
Definition starts_outside (needle tail : pystr) : bool :=
  match tail with
  | c :: _ => negb (bool_decide (c ∈ needle))
  | [] => false
  end.

(** The check made on the two literals around an inserted text. *)
Definition wrap_ok (needle lit tail : pystr) : bool :=
  negb (contains needle lit) && negb (overlaps_end needle lit)
  && negb (contains needle tail) && starts_outside needle tail
  && bool_decide (last tail = Some 10).

(** The check made on a literal that stands alone. *)
Definition lit_ok (needle lit : pystr) : bool :=
  negb (contains needle lit) && bool_decide (last lit = Some 10).

(** ** The layout of the answer on text outputs *)

(** The tool identifiers the composers look for. *)
Definition RECOGNISED : list pystr :=
  [py "wikipedia_search"; py "arxiv_summarizer"; py "news_fetcher";
   py "sentiment_analyzer"; py "qa_engine"].

(** The text stored for a tool, empty when there is none. *)
Definition stored_text (outputs : gmap pystr pyval) (key : pystr) : pystr :=
  match outputs !! key with
  | Some v => py_str v
  | None => []
  end.

(** A section that shows [s] below [heading] when it is longer than [n]. *)
Definition shown (heading : pystr) (n : nat) (s : pystr) : pystr :=
  if (n <? length s)%nat then heading ++ s ++ py "\n\n" else [].

(** The Wikipedia section of the QA path (lines 73 to 82). *)
Definition qa_wikipedia_block (s : pystr) : pystr :=
  if (50 <? length s)%nat then
    py "### 📖 Wikipedia Background\n\n"
    ++ (if (800 <? length s)%nat
        then take 800 s ++ py "...\n\n" ++ DETAILS_OPEN ++ s
             ++ py "\n\n</details>\n\n"
        else s ++ py "\n\n")
  else [].

(** The three source sections of the QA path, and the note that stands in
    for them when none is shown (lines 64 to 91). *)
Definition qa_sources (outputs : gmap pystr pyval) : pystr :=
  let papers := stored_text outputs (py "arxiv_summarizer") in
  let wiki := stored_text outputs (py "wikipedia_search") in
  let news := stored_text outputs (py "news_fetcher") in
  shown (py "### 🔬 Academic Papers Found\n\n") 50 papers
  ++ qa_wikipedia_block wiki
  ++ shown (py "### 📰 Recent News Articles\n\n") 50 news
  ++ (if (50 <? length papers)%nat || (50 <? length wiki)%nat
         || (50 <? length news)%nat
      then [] else QA_NOTE).

(** The paragraph shown for placeholder paper data (lines 200 to 212). *)
Definition MOCK_PAPERS (query : pystr) : pystr :=
  py "Based on the academic research related to **" ++ dq ++ query ++ dq
  ++ py "**, several important papers have been published:\n\n**Research Themes:**\n- The field shows active research with multiple recent publications\n- Key areas of focus include theoretical foundations and practical applications\n- Current work explores novel approaches and methodologies\n\n**Note:** This is a demonstration of the ArXiv integration. In a live system with a valid ArXiv API connection, you would see actual paper titles, authors, abstracts, and publication details from the research database.\n\nTo access real academic papers, ensure:\n1. Internet connectivity is available\n2. The ArXiv API is accessible\n3. Your query matches indexed research topics".

(** The paragraph shown when there is no news to report (line 231). *)
Definition NO_NEWS (query : pystr) : pystr :=
  py "No recent news articles were found specifically about " ++ query
  ++ py ". This could mean:\n- The topic is highly specialized\n- No major news coverage in recent days\n- Try a broader search term for more results".

(** One bullet per line, each line stripped. *)
Definition bullets (lines : list pystr) : pystr :=
  flat_map (fun line => py "- " ++ strip line ++ py "\n") lines.

(** The lines of a paper list that name a paper, and the lines of a news
    list that name an article. *)
Definition paper_lines (s : pystr) : list pystr :=
  List.filter (fun line => startswith (strip line) (py "**")) (split_lines s).

Definition news_lines (s : pystr) : list pystr :=
  List.filter (fun line => contains (py "**Article") line
                           || contains (py "**Title") line)
              (split_lines s).

(** What the two synthesizers return for a text. *)
Definition arxiv_summary (query s : pystr) : pystr :=
  if contains (py "Sample Paper") s then MOCK_PAPERS query
  else py "Found relevant academic research on **" ++ query ++ py "**:\n\n"
       ++ bullets (paper_lines s).

Definition news_summary (query s : pystr) : pystr :=
  if contains (py "No recent news") s || (length s <? 100)%nat
  then NO_NEWS query
  else py "Recent news coverage on **" ++ query ++ py "**:\n\n"
       ++ bullets (news_lines s).

(** The short QA answer that opens the fallback path (lines 119 to 121). *)
Definition fb_quick (outputs : gmap pystr pyval) : pystr :=
  match outputs !! py "qa_engine" with
  | Some v =>
      py "## 💡 Quick Answer\n\n" ++ py_str v ++ py "\n\n" ++ py "---\n\n"
  | None => []
  end.

(** The sections of the fallback path (lines 127 to 160). *)
Definition fb_research (query s : pystr) : pystr :=
  if contains (py "Found") s && contains (py "papers") s
  then py "## 🔬 Academic Research\n\n" ++ arxiv_summary query s ++ py "\n\n"
  else [].

Definition fb_developments (query s : pystr) : pystr :=
  if (50 <? length s)%nat
  then py "## 📰 Recent Developments\n\n" ++ news_summary query s ++ py "\n\n"
  else [].

Definition fb_sections (query : pystr) (outputs : gmap pystr pyval) : pystr :=
  shown (py "## 📚 Background\n\n") 50 (stored_text outputs (py "wikipedia_search"))
  ++ fb_research query (stored_text outputs (py "arxiv_summarizer"))
  ++ fb_developments query (stored_text outputs (py "news_fetcher"))
  ++ shown (py "## 💭 Sentiment Analysis\n\n") 20
       (stored_text outputs (py "sentiment_analyzer")).

(** Some section of the fallback path is shown. *)
Definition fb_has_content (outputs : gmap pystr pyval) : bool :=
  let papers := stored_text outputs (py "arxiv_summarizer") in
  (50 <? length (stored_text outputs (py "wikipedia_search")))%nat
  || (contains (py "Found") papers && contains (py "papers") papers)
  || (50 <? length (stored_text outputs (py "news_fetcher")))%nat
  || (20 <? length (stored_text outputs (py "sentiment_analyzer")))%nat.

(** The closing section of the fallback path (lines 173 to 176). *)
Definition fb_insights (query : pystr) (outputs : gmap pystr pyval) : pystr :=
  if fb_has_content outputs
  then py "## 🎯 Key Insights\n\n" ++ _generate_key_insights query outputs
       ++ py "\n\n"
  else [].

(** The same record without its 'output' key. *)
Definition without_output (r : record) : record :=
  Result (tool r) (status r) None.

(** The text holds one of the two phrases the resource scan looks for,
    whatever the case of its letters. *)
Definition triggers (s : pystr) : Prop :=
  occurs (py "successfully created") (lower s) ∨ occurs (py "generated") (lower s).

(** The text hints at a chart, and at a document. *)
Definition chart_hint (s : pystr) : Prop :=
  occurs (py ".png") s ∨ occurs (py "Chart") s.

Definition pdf_hint (s : pystr) : Prop :=
  occurs (py ".pdf") s ∨ occurs (py "PDF") s.

(** What one record with the text [s] adds to the list of files: nothing,
    one chart entry or one pdf entry, the chart test coming first. *)
Definition scan_pick (s : pystr) (pick : list (pystr * pyval)) : Prop :=
  (pick = [] ∧ ¬ (triggers s ∧ (chart_hint s ∨ pdf_hint s)))
  ∨ (pick = [(py "chart", VStr s)] ∧ triggers s ∧ chart_hint s)
  ∨ (pick = [(py "pdf", VStr s)] ∧ triggers s ∧ ¬ chart_hint s ∧ pdf_hint s).

(** * Properties *)

(** ** The literals *)

Example py_ascii : py "Error:" = [69; 114; 114; 111; 114; 58].
Proof. reflexivity. Qed.

Example py_newline : py "a\n\n" = [97; 10; 10].
Proof. reflexivity. Qed.

Example py_glyphs : py "❌✓📖" = [10060; 10003; 128214].
Proof. reflexivity. Qed.

Example str_of_nat_3 : str_of_nat 3 = py "3" /\ str_of_nat 120 = py "120".
Proof. split; reflexivity. Qed.

Example split_lines_ex : split_lines (py "ab\n\ncd\n") = [py "ab"; []; py "cd"; []].
Proof. reflexivity. Qed.

Example strip_ex : strip (py "  **x y** \n") = py "**x y**".
Proof. reflexivity. Qed.

(** ** Texts: prefixes and occurrences *)

Lemma startswith_prefix (s p : pystr) :
  startswith s p = true ↔ p `prefix_of` s.
Proof.
  revert s. induction p as [|c p IH]; intros s; simpl.
  - destruct s; (split; [intros _; apply prefix_nil | done]).
  - destruct s as [|d s]; simpl.
    + split; [done | intros H; by apply prefix_nil_inv in H].
    + rewrite andb_true_iff, N.eqb_eq, IH. split.
      * intros [-> Hp]. by apply prefix_cons.
      * intros H. split; [by eapply prefix_cons_inv_1 | by eapply prefix_cons_inv_2].
Qed.

Lemma startswith_false (s p : pystr) :
  startswith s p = false ↔ ¬ p `prefix_of` s.
Proof.
  rewrite <- startswith_prefix. destruct (startswith s p); split; done.
Qed.

Lemma occurs_prefix (needle s : pystr) : needle `prefix_of` s → occurs needle s.
Proof. intros [k ->]. by exists [], k. Qed.

Lemma occurs_cons (needle : pystr) c s : occurs needle s → occurs needle (c :: s).
Proof. intros (pre & post & ->). by exists (c :: pre), post. Qed.

Lemma occurs_app_l (needle a b : pystr) : occurs needle a → occurs needle (a ++ b).
Proof.
  intros (pre & post & ->). exists pre, (post ++ b). by rewrite <- !app_assoc.
Qed.

Lemma occurs_app_r (needle a b : pystr) : occurs needle b → occurs needle (a ++ b).
Proof.
  intros (pre & post & ->). exists (a ++ pre), post. by rewrite <- !app_assoc.
Qed.

Lemma occurs_here (needle a b : pystr) : occurs needle (a ++ needle ++ b).
Proof. by exists a, b. Qed.

Lemma occurs_refl (s : pystr) : occurs s s.
Proof. exists [], []. by rewrite app_nil_r. Qed.

Lemma occurs_trans (n m s : pystr) : occurs n m → occurs m s → occurs n s.
Proof.
  intros (p1 & q1 & ->) (p2 & q2 & ->).
  exists (p2 ++ p1), (q1 ++ q2). by rewrite <- !app_assoc.
Qed.

Lemma contains_cons (needle : pystr) c s :
  contains needle (c :: s) = startswith (c :: s) needle || contains needle s.
Proof. reflexivity. Qed.

Lemma contains_nil (needle : pystr) : contains needle [] = startswith [] needle.
Proof. unfold contains. apply orb_false_r. Qed.

Lemma contains_occurs (needle s : pystr) :
  contains needle s = true ↔ occurs needle s.
Proof.
  induction s as [|c s IH].
  - rewrite contains_nil, startswith_prefix. split; [apply occurs_prefix|].
    intros (pre & post & H). symmetry in H.
    apply app_eq_nil in H as [-> H]. apply app_eq_nil in H as [-> _]. done.
  - rewrite contains_cons, orb_true_iff, startswith_prefix, IH. split.
    + intros [H|H]; [by apply occurs_prefix | by apply occurs_cons].
    + intros (pre & post & H). destruct pre as [|d pre]; simpl in H.
      * left. exists post. done.
      * right. injection H as _ ->. by exists pre, post.
Qed.

Lemma contains_false (needle s : pystr) :
  contains needle s = false ↔ ¬ occurs needle s.
Proof.
  rewrite <- contains_occurs. destruct (contains needle s); split; done.
Qed.

(** ** The outcome filter *)

Lemma store_output_kept outputs r :
  kept r → store_output outputs r = <[tool_name r := as_stored (raw_output r)]> outputs.
Proof.
  intros [Hs Hu]. unfold store_output. rewrite decide_True by exact Hs.
  destruct (raw_output r) as [s|keys shown|shown]; simpl in *; try done.
  destruct Hu as [Hne Hpre].
  rewrite bool_decide_eq_true_2 by done.
  apply startswith_false in Hpre. by rewrite Hpre.
Qed.

Lemma store_output_skipped outputs r :
  ¬ kept r → store_output outputs r = outputs.
Proof.
  intros Hk. unfold store_output. destruct (decide _) as [Hs|]; [|done].
  destruct (raw_output r) as [s|keys shown|shown] eqn:Hr;
    try (exfalso; apply Hk; split; [done | by rewrite Hr]).
  destruct (bool_decide (s ≠ [])) eqn:Hne; [|done].
  destruct (startswith s (py "Error:")) eqn:Hp; [done|].
  exfalso. apply Hk. split; [done|]. rewrite Hr. split.
  - by apply bool_decide_eq_true_1 in Hne.
  - by apply startswith_false.
Qed.

Lemma kept_dec (r : record) : kept r ∨ ¬ kept r.
Proof.
  unfold kept, succeeded, usable.
  destruct (decide (status r = Some (py "success"))); [|right; tauto].
  destruct (raw_output r) as [s|?|?]; [|left; done..].
  destruct (decide (s = [])); [right; tauto|].
  destruct (decide (py "Error:" `prefix_of` s)); [right; tauto | left; done].
Qed.

Lemma collect_outputs_snoc rs r :
  collect_outputs (rs ++ [r]) = store_output (collect_outputs rs) r.
Proof. unfold collect_outputs. by rewrite foldl_app. Qed.

Lemma collect_outputs_lookup rs k v :
  collect_outputs rs !! k = Some v →
  ∃ r, r ∈ rs ∧ kept r ∧ tool_name r = k ∧ v = as_stored (raw_output r).
Proof.
  induction rs as [|r rs IH] using rev_ind.
  - unfold collect_outputs. simpl. by rewrite lookup_empty.
  - rewrite collect_outputs_snoc. destruct (kept_dec r) as [Hk|Hk].
    + rewrite store_output_kept by done.
      destruct (decide (tool_name r = k)) as [<-|Hne].
      * rewrite lookup_insert_eq. intros [= <-].
        exists r. rewrite elem_of_app, list_elem_of_singleton. eauto.
      * rewrite lookup_insert_ne by done. intros H.
        destruct (IH H) as (r' & ? & ?). exists r'. rewrite elem_of_app. tauto.
    + rewrite store_output_skipped by done. intros H.
      destruct (IH H) as (r' & ? & ?). exists r'. rewrite elem_of_app. tauto.
Qed.

Lemma collect_outputs_last rs1 r rs2 :
  kept r →
  (∀ r', r' ∈ rs2 → kept r' → tool_name r' ≠ tool_name r) →
  collect_outputs (rs1 ++ r :: rs2) !! tool_name r = Some (as_stored (raw_output r)).
Proof.
  intros Hk. induction rs2 as [|r' rs2 IH] using rev_ind; intros Hlater.
  - rewrite collect_outputs_snoc, store_output_kept by done.
    apply lookup_insert_eq.
  - replace (rs1 ++ r :: rs2 ++ [r']) with ((rs1 ++ r :: rs2) ++ [r'])
      by (by rewrite <- app_assoc).
    rewrite collect_outputs_snoc.
    assert (Hrec : collect_outputs (rs1 ++ r :: rs2) !! tool_name r
                   = Some (as_stored (raw_output r))).
    { apply IH. intros r'' Hin. apply Hlater. rewrite elem_of_app. by left. }
    destruct (kept_dec r') as [Hk'|Hk'].
    + rewrite store_output_kept by done. rewrite lookup_insert_ne; [done|].
      apply Hlater; [|done]. rewrite elem_of_app, list_elem_of_singleton. by right.
    + by rewrite store_output_skipped.
Qed.

Lemma collect_outputs_is_Some rs k :
  is_Some (collect_outputs rs !! k) ↔ ∃ r, r ∈ rs ∧ kept r ∧ tool_name r = k.
Proof.
  split.
  - intros [v Hv]. destruct (collect_outputs_lookup _ _ _ Hv) as (r & ? & ? & ? & _).
    eauto.
  - induction rs as [|r rs IH] using rev_ind.
    + intros (r & Hin & _). by apply elem_of_nil in Hin.
    + intros (r0 & Hin & Hk0 & Ht). rewrite collect_outputs_snoc.
      destruct (kept_dec r) as [Hk|Hk].
      * rewrite store_output_kept by done.
        destruct (decide (tool_name r = k)) as [<-|Hne].
        -- rewrite lookup_insert_eq. eauto.
        -- rewrite lookup_insert_ne by done. apply IH.
           apply elem_of_app in Hin as [Hin|Hin]; [eauto|].
           apply list_elem_of_singleton in Hin as ->. done.
      * rewrite store_output_skipped by done. apply IH.
        apply elem_of_app in Hin as [Hin|Hin]; [eauto|].
        apply list_elem_of_singleton in Hin as ->. done.
Qed.

Lemma collect_outputs_nonempty rs k v :
  collect_outputs rs !! k = Some v → collect_outputs rs ≠ ∅.
Proof. intros Hv He. by rewrite He, lookup_empty in Hv. Qed.

Lemma collect_outputs_empty rs :
  collect_outputs rs = ∅ ↔ Forall (fun r => ¬ kept r) rs.
Proof.
  split.
  - intros He. apply Forall_forall. intros r Hin Hk.
    assert (Hs : is_Some (collect_outputs rs !! tool_name r)).
    { apply collect_outputs_is_Some. eauto. }
    rewrite He, lookup_empty in Hs. by destruct Hs.
  - intros Hall. apply map_eq. intros k. rewrite lookup_empty.
    apply eq_None_not_Some. intros Hs.
    apply collect_outputs_is_Some in Hs as (r & Hin & Hk & _).
    rewrite Forall_forall in Hall. by apply (Hall r).
Qed.

(** ** Records whose output is a text *)

Lemma collect_outputs_text rs k v :
  Forall text_output rs →
  collect_outputs rs !! k = Some v →
  ∃ s r, v = VStr s ∧ r ∈ rs ∧ raw_output r = VStr s.
Proof.
  intros Hall Hv.
  destruct (collect_outputs_lookup _ _ _ Hv) as (r & Hin & _ & _ & ->).
  rewrite Forall_forall in Hall. destruct (Hall r Hin) as [s Hs].
  exists s, r. by rewrite Hs.
Qed.

Lemma collect_outputs_text_map rs :
  Forall text_output rs → text_map (collect_outputs rs).
Proof.
  intros Hall k v Hv.
  destruct (collect_outputs_text _ _ _ Hall Hv) as (s & _ & -> & _). eauto.
Qed.

(** ** The generated-resource scan *)

Lemma scan_record_text files r s :
  raw_output r = VStr s → scan_record files r = Returns (files ++ found s).
Proof.
  intros Hr. unfold scan_record, found. rewrite Hr. simpl.
  destruct (_ || _); simpl; [|by rewrite app_nil_r].
  destruct (contains (py ".png") s); simpl; [done|].
  destruct (contains (py "Chart") s); simpl; [done|].
  destruct (contains (py ".pdf") s); simpl; [done|].
  destruct (contains (py "PDF") s); simpl; [done|].
  by rewrite app_nil_r.
Qed.

Lemma scan_from_text rs files :
  Forall text_output rs →
  for_each scan_record files rs = Returns (files ++ found_all rs).
Proof.
  revert files. induction rs as [|r rs IH]; intros files Hall; simpl.
  - by rewrite app_nil_r.
  - apply Forall_cons in Hall as [[s Hs] Hall].
    rewrite (scan_record_text _ _ _ Hs). simpl.
    rewrite IH by done. rewrite Hs. simpl. by rewrite <- app_assoc.
Qed.

Lemma scan_generated_text rs :
  Forall text_output rs → scan_generated rs = Returns (found_all rs).
Proof. intros Hall. unfold scan_generated. by rewrite scan_from_text. Qed.

Lemma scan_from_raises rs files :
  Exists (fun r => ¬ text_output r) rs →
  for_each scan_record files rs = Raises.
Proof.
  revert files. induction rs as [|r rs IH]; intros files Hex.
  - by apply Exists_nil in Hex.
  - simpl. destruct (raw_output r) as [s|keys shown|shown] eqn:Hr.
    + rewrite (scan_record_text _ _ _ Hr). simpl. apply IH.
      apply Exists_cons in Hex as [Hno|Hex]; [|done].
      destruct Hno. by exists s.
    + unfold scan_record. by rewrite Hr.
    + unfold scan_record. by rewrite Hr.
Qed.

Lemma list_file_app a file : list_file a file = a ++ list_file [] file.
Proof. destruct file as [ty info]. unfold list_file. by destruct (decide _). Qed.

Lemma foldl_list_file files a :
  foldl list_file a files = a ++ file_lines files.
Proof.
  revert a. induction files as [|f files IH]; intros a; simpl.
  - by rewrite app_nil_r.
  - rewrite IH, (list_file_app a f). by rewrite <- app_assoc.
Qed.

Lemma add_generated_app files a :
  add_generated files a = a ++ add_generated files [].
Proof.
  destruct files as [|f files]; [by rewrite app_nil_r|].
  unfold add_generated. rewrite !foldl_list_file. simpl.
  by rewrite <- !app_assoc.
Qed.

Lemma add_generated_cons f files :
  add_generated (f :: files) [] =
  py "## 📊 Generated Resources\n\n" ++ file_lines (f :: files) ++ py "\n".
Proof.
  unfold add_generated. rewrite foldl_list_file. simpl.
  by rewrite <- !app_assoc.
Qed.

(** ** The blocks of the answer composer on text outputs *)

Ltac block_cases Htext key :=
  match goal with
  | |- context [?outputs !! key] =>
      let v := fresh "v" in
      let Hv := fresh "Hv" in
      let s := fresh "s" in
      destruct (outputs !! key) as [v|] eqn:Hv;
      [ destruct (Htext _ _ Hv) as [s ->]; simpl | ]
  end.

Lemma qa_arxiv_text outputs a hs :
  text_map outputs →
  ∃ c hs', qa_arxiv outputs (a, hs) = Returns (a ++ c, hs')
    ∧ shown_if_longer outputs (py "arxiv_summarizer") 50
        (py "### 🔬 Academic Papers Found\n\n") c hs hs'.
Proof.
  intros Htext. unfold qa_arxiv, shown_if_longer.
  block_cases Htext (py "arxiv_summarizer").
  - destruct (50 <? length s)%nat eqn:Hlen; simpl.
    + apply Nat.ltb_lt in Hlen. eexists _, true. split.
      * by rewrite <- app_assoc.
      * right. exists s. done.
    + apply Nat.ltb_ge in Hlen. exists [], hs. rewrite app_nil_r.
      split; [done|]. left. repeat split; try done. by intros ? [= <-].
  - exists [], hs. rewrite app_nil_r. split; [done|]. left. done.
Qed.

Lemma qa_news_text outputs a hs :
  text_map outputs →
  ∃ c hs', qa_news outputs (a, hs) = Returns (a ++ c, hs')
    ∧ shown_if_longer outputs (py "news_fetcher") 50
        (py "### 📰 Recent News Articles\n\n") c hs hs'.
Proof.
  intros Htext. unfold qa_news, shown_if_longer.
  block_cases Htext (py "news_fetcher").
  - destruct (50 <? length s)%nat eqn:Hlen; simpl.
    + apply Nat.ltb_lt in Hlen. eexists _, true. split.
      * by rewrite <- app_assoc.
      * right. exists s. done.
    + apply Nat.ltb_ge in Hlen. exists [], hs. rewrite app_nil_r.
      split; [done|]. left. repeat split; try done. by intros ? [= <-].
  - exists [], hs. rewrite app_nil_r. split; [done|]. left. done.
Qed.

Lemma qa_wikipedia_text outputs a hs :
  text_map outputs →
  ∃ c hs', qa_wikipedia outputs (a, hs) = Returns (a ++ c, hs')
    ∧ wiki_shown outputs c hs hs'.
Proof.
  intros Htext. unfold qa_wikipedia, wiki_shown.
  block_cases Htext (py "wikipedia_search").
  - destruct (50 <? length s)%nat eqn:Hlen; simpl.
    + apply Nat.ltb_lt in Hlen.
      destruct (800 <? length s)%nat eqn:Hlong; simpl.
      * apply Nat.ltb_lt in Hlong. eexists _, true. split.
        -- rewrite <- !app_assoc. reflexivity.
        -- right. exists s. repeat split; try done. right. done.
      * apply Nat.ltb_ge in Hlong. eexists _, true. split.
        -- rewrite <- !app_assoc. reflexivity.
        -- right. exists s. repeat split; try done. left. done.
    + apply Nat.ltb_ge in Hlen. exists [], hs. rewrite app_nil_r.
      split; [done|]. left. repeat split; try done. by intros ? [= <-].
  - exists [], hs. rewrite app_nil_r. split; [done|]. left. done.
Qed.

Lemma fb_wikipedia_text outputs a hc :
  text_map outputs →
  ∃ c hc', fb_wikipedia outputs (a, hc) = Returns (a ++ c, hc')
    ∧ shown_if_longer outputs (py "wikipedia_search") 50
        (py "## 📚 Background\n\n") c hc hc'.
Proof.
  intros Htext. unfold fb_wikipedia, shown_if_longer.
  block_cases Htext (py "wikipedia_search").
  - destruct (50 <? length s)%nat eqn:Hlen; simpl.
    + apply Nat.ltb_lt in Hlen. eexists _, true. split.
      * by rewrite <- app_assoc.
      * right. exists s. done.
    + apply Nat.ltb_ge in Hlen. exists [], hc. rewrite app_nil_r.
      split; [done|]. left. repeat split; try done. by intros ? [= <-].
  - exists [], hc. rewrite app_nil_r. split; [done|]. left. done.
Qed.

Lemma fb_sentiment_text outputs a hc :
  text_map outputs →
  ∃ c hc', fb_sentiment outputs (a, hc) = Returns (a ++ c, hc')
    ∧ shown_if_longer outputs (py "sentiment_analyzer") 20
        (py "## 💭 Sentiment Analysis\n\n") c hc hc'.
Proof.
  intros Htext. unfold fb_sentiment, shown_if_longer.
  block_cases Htext (py "sentiment_analyzer").
  - destruct (20 <? length s)%nat eqn:Hlen; simpl.
    + apply Nat.ltb_lt in Hlen. eexists _, true. split.
      * by rewrite <- app_assoc.
      * right. exists s. done.
    + apply Nat.ltb_ge in Hlen. exists [], hc. rewrite app_nil_r.
      split; [done|]. left. repeat split; try done. by intros ? [= <-].
  - exists [], hc. rewrite app_nil_r. split; [done|]. left. done.
Qed.

Lemma _synthesize_arxiv_papers_text query s :
  ∃ t, _synthesize_arxiv_papers query (VStr s) = Returns t.
Proof.
  unfold _synthesize_arxiv_papers. simpl.
  destruct (contains (py "Sample Paper") s); simpl; eauto.
Qed.

Lemma _synthesize_news_text query s :
  ∃ t, _synthesize_news query (VStr s) = Returns t.
Proof.
  unfold _synthesize_news. simpl.
  destruct (contains (py "No recent news") s); simpl; [eauto|].
  destruct (length s <? 100)%nat; simpl; eauto.
Qed.

Lemma fb_arxiv_text query outputs a hc :
  text_map outputs →
  ∃ c hc', fb_arxiv query outputs (a, hc) = Returns (a ++ c, hc').
Proof.
  intros Htext. unfold fb_arxiv.
  block_cases Htext (py "arxiv_summarizer").
  - destruct (_synthesize_arxiv_papers_text query s) as [t Ht].
    destruct (contains (py "Found") s); simpl;
      [destruct (contains (py "papers") s); simpl|].
    + rewrite Ht. simpl. eexists _, true. by rewrite <- !app_assoc.
    + exists [], hc. by rewrite app_nil_r.
    + exists [], hc. by rewrite app_nil_r.
  - exists [], hc. by rewrite app_nil_r.
Qed.

Lemma fb_news_text query outputs a hc :
  text_map outputs →
  ∃ c hc', fb_news query outputs (a, hc) = Returns (a ++ c, hc').
Proof.
  intros Htext. unfold fb_news.
  block_cases Htext (py "news_fetcher").
  - destruct (_synthesize_news_text query s) as [t Ht].
    destruct (50 <? length s)%nat; simpl.
    + rewrite Ht. simpl. eexists _, true. by rewrite <- !app_assoc.
    + exists [], hc. by rewrite app_nil_r.
  - exists [], hc. by rewrite app_nil_r.
Qed.

(** ** The two paths on text outputs *)

Lemma bind_Returns {A B : Type} (a : A) (f : A → outcome B) :
  (Returns a ≫= f) = f a.
Proof. reflexivity. Qed.

Lemma bind_Raises {A B : Type} (f : A → outcome B) : (Raises ≫= f) = Raises.
Proof. reflexivity. Qed.

Lemma py_add_text s t : py_add (VStr s) t = Returns (s ++ t).
Proof. reflexivity. Qed.

Lemma py_len_text s : py_len (VStr s) = Returns (length s).
Proof. reflexivity. Qed.

Lemma is_substantial_text qa :
  is_substantial (VStr qa)
  = Returns ((300 <? length qa)%nat && negb (startswith qa (py "I'm sorry"))).
Proof.
  unfold is_substantial. rewrite py_len_text, bind_Returns.
  by destruct (300 <? length qa)%nat.
Qed.

Ltac step_block lem :=
  match goal with
  | |- context [?block ?outputs (?x, ?flag) ≫= _] =>
      let c := fresh "c" in
      let h := fresh "h" in
      let E := fresh "E" in
      let Hs := fresh "Hshape" in
      destruct (lem outputs x flag) as (c & h & E & Hs); [assumption|];
      rewrite E, bind_Returns; clear E
  end.

Lemma qa_primary_text rs outputs qa a :
  text_map outputs →
  Forall text_output rs →
  ∃ ca cw cn hs1 hs2 hs3,
    shown_if_longer outputs (py "arxiv_summarizer") 50
      (py "### 🔬 Academic Papers Found\n\n") ca false hs1
    ∧ wiki_shown outputs cw hs1 hs2
    ∧ shown_if_longer outputs (py "news_fetcher") 50
        (py "### 📰 Recent News Articles\n\n") cn hs2 hs3
    ∧ qa_primary rs outputs (VStr qa) a
      = Returns (a ++ (qa ++ py "\n\n") ++ QA_HEAD ++ ca ++ cw ++ cn
                 ++ (if hs3 then [] else QA_NOTE)
                 ++ add_generated (found_all rs) [] ++ QA_FOOT).
Proof.
  intros Htext Hall. unfold qa_primary.
  rewrite py_add_text, bind_Returns. cbv zeta.
  step_block qa_arxiv_text. step_block qa_wikipedia_text.
  step_block qa_news_text. cbv beta iota zeta.
  rewrite (scan_generated_text _ Hall), bind_Returns.
  exists c, c0, c1, h, h0, h1. repeat split; try done.
  unfold mret, outcome_ret. f_equal.
  rewrite add_generated_app. unfold QA_HEAD, QA_FOOT, QA_NOTE.
  destruct h1; rewrite <- ?app_assoc; rewrite ?app_nil_l; reflexivity.
Qed.

Lemma fallback_text query rs outputs a :
  text_map outputs →
  Forall text_output rs →
  ∃ c, fallback query rs outputs a
       = Returns (a ++ c ++ add_generated (found_all rs) [] ++ FB_FOOT).
Proof.
  intros Htext Hall. unfold fallback. cbv zeta.
  step_block fb_wikipedia_text.
  destruct (fb_arxiv_text query outputs (a ++ c) h Htext) as (c2 & h2 & ->).
  rewrite bind_Returns.
  destruct (fb_news_text query outputs ((a ++ c) ++ c2) h2 Htext) as (c3 & h3 & ->).
  rewrite bind_Returns.
  step_block fb_sentiment_text. cbv beta iota zeta.
  rewrite (scan_generated_text _ Hall), bind_Returns.
  unfold mret, outcome_ret.
  rewrite add_generated_app. unfold FB_FOOT.
  destruct h0.
  - exists (c ++ c2 ++ c3 ++ c0 ++ py "## 🎯 Key Insights\n\n"
            ++ _generate_key_insights query outputs ++ py "\n\n").
    f_equal. rewrite <- !app_assoc. reflexivity.
  - exists (c ++ c2 ++ c3 ++ c0). f_equal. rewrite <- !app_assoc. reflexivity.
Qed.

(** On text outputs the composer returns: the notice, or a text that opens
    with the title and closes with the resource list and a footer. *)
Lemma synthesize_answer_text query rs plan :
  Forall text_output rs →
  (collect_outputs rs = ∅ ∧ synthesize_answer query rs plan = Returns NO_RESULTS)
  ∨ (collect_outputs rs ≠ ∅
     ∧ ∃ c foot, synthesize_answer query rs plan
                 = Returns (TITLE query ++ c
                            ++ add_generated (found_all rs) [] ++ foot)).
Proof.
  intros Hall. pose proof (collect_outputs_text_map _ Hall) as Htext.
  unfold synthesize_answer. cbv zeta.
  destruct (decide (collect_outputs rs = ∅)) as [He|Hne].
  - left. done.
  - right. split; [done|].
    change (py "# 📖 Answer to: " ++ query ++ py "\n\n") with (TITLE query).
    destruct (collect_outputs rs !! py "qa_engine") as [v|] eqn:Hqa.
    + destruct (Htext _ _ Hqa) as [qa ->].
      rewrite is_substantial_text, bind_Returns.
      destruct (_ && _).
      * destruct (qa_primary_text rs _ qa (TITLE query) Htext Hall)
          as (ca & cw & cn & h1 & h2 & h3 & _ & _ & _ & ->).
        exists ((qa ++ py "\n\n") ++ QA_HEAD ++ ca ++ cw ++ cn
                ++ (if h3 then [] else QA_NOTE)), QA_FOOT.
        f_equal. rewrite <- !app_assoc. reflexivity.
      * match goal with |- context [fallback query rs _ ?x] =>
          destruct (fallback_text query rs _ x Htext Hall) as [c ->] end.
        exists ((py "## 💡 Quick Answer\n\n" ++ qa ++ py "\n\n" ++ py "---\n\n")
                ++ c), FB_FOOT.
        f_equal. unfold py_str. rewrite <- !app_assoc. reflexivity.
    + destruct (fallback_text query rs _ (TITLE query) Htext Hall) as [c ->].
      eauto.
Qed.

(** ** When the call raises *)

Lemma qa_primary_scan_raises rs outputs v a :
  scan_generated rs = Raises → qa_primary rs outputs v a = Raises.
Proof.
  intros Hscan. unfold qa_primary.
  destruct (py_add v (py "\n\n")) as [t|]; [rewrite bind_Returns|done].
  cbv zeta.
  destruct (qa_arxiv outputs _) as [st1|]; [rewrite bind_Returns|done].
  destruct (qa_wikipedia outputs st1) as [st2|]; [rewrite bind_Returns|done].
  destruct (qa_news outputs st2) as [[answer hs]|]; [rewrite bind_Returns|done].
  by rewrite Hscan.
Qed.

Lemma fallback_scan_raises query rs outputs a :
  scan_generated rs = Raises → fallback query rs outputs a = Raises.
Proof.
  intros Hscan. unfold fallback. cbv zeta.
  destruct (fb_wikipedia outputs _) as [st1|]; [rewrite bind_Returns|done].
  destruct (fb_arxiv query outputs st1) as [st2|]; [rewrite bind_Returns|done].
  destruct (fb_news query outputs st2) as [st3|]; [rewrite bind_Returns|done].
  destruct (fb_sentiment outputs st3) as [[answer hc]|]; [rewrite bind_Returns|done].
  by rewrite Hscan.
Qed.

(** Once some record passes the filter, one record whose output is not a
    text is enough for the call to raise, whatever its status. *)
Lemma synthesize_answer_non_text query rs plan :
  collect_outputs rs ≠ ∅ →
  Exists (fun r => ¬ text_output r) rs →
  synthesize_answer query rs plan = Raises.
Proof.
  intros Hne Hex.
  assert (Hscan : scan_generated rs = Raises) by by apply scan_from_raises.
  unfold synthesize_answer. cbv zeta. rewrite decide_False by done.
  destruct (collect_outputs rs !! py "qa_engine") as [v|].
  - destruct (is_substantial v) as [[|]|]; [rewrite bind_Returns..|done].
    + by apply qa_primary_scan_raises.
    + by apply fallback_scan_raises.
  - by apply fallback_scan_raises.
Qed.

(** ** The summary composer *)

Ltac eval_bool_decide :=
  repeat match goal with
    | |- context [@bool_decide ?P ?d] =>
        let b := eval vm_compute in (@bool_decide P d) in
        let E := fresh "E" in
        assert (E : @bool_decide P d = b) by (vm_compute; reflexivity);
        rewrite E; clear E
    end.

Lemma successful_tools_length rs :
  length (successful_tools rs) = length (filter succeeded rs).
Proof. unfold successful_tools. apply length_fmap. Qed.

Lemma summary_total query rs :
  successful_tools rs ≠ [] →
  ∃ body, create_executive_summary query rs
          = body ++ py "Total of " ++ str_of_nat (length (successful_tools rs))
            ++ py " information sources consulted.".
Proof.
  intros Hne. unfold create_executive_summary. cbv zeta.
  destruct (successful_tools rs) as [|t ts] eqn:Ht; [done|].
  eexists. rewrite <- app_assoc. reflexivity.
Qed.

(** ** Supporting facts for the claims *)

Lemma synthesize_answer_no_outputs query rs plan :
  collect_outputs rs = ∅ → synthesize_answer query rs plan = Returns NO_RESULTS.
Proof.
  intros He. unfold synthesize_answer. cbv zeta. by rewrite decide_True.
Qed.

Lemma title_occurs query rest : occurs query (TITLE query ++ rest).
Proof.
  unfold TITLE. exists (py "# 📖 Answer to: "), (py "\n\n" ++ rest).
  by rewrite <- !app_assoc.
Qed.

Lemma TITLE_nonempty query rest : TITLE query ++ rest ≠ [].
Proof. unfold TITLE. vm_compute. discriminate. Qed.

Lemma lower_app a b : lower (a ++ b) = lower a ++ lower b.
Proof. unfold lower. apply map_app. Qed.

Lemma occurs_lower needle s : occurs needle s → occurs (lower needle) (lower s).
Proof. intros (pre & post & ->). rewrite !lower_app. apply occurs_here. Qed.

Lemma found_chart s :
  occurs (py "successfully created chart.png") s → found s = [(py "chart", VStr s)].
Proof.
  intros Hocc. unfold found.
  assert (H1 : contains (py "successfully created") (lower s) = true).
  { apply contains_occurs. apply occurs_lower in Hocc.
    eapply occurs_trans; [|exact Hocc]. apply contains_occurs. reflexivity. }
  assert (H2 : contains (py ".png") s = true).
  { apply contains_occurs. eapply occurs_trans; [|exact Hocc].
    apply contains_occurs. reflexivity. }
  by rewrite H1, H2.
Qed.

Lemma found_all_app rs1 rs2 : found_all (rs1 ++ rs2) = found_all rs1 ++ found_all rs2.
Proof. unfold found_all. apply flat_map_app. Qed.

Lemma file_lines_app f1 f2 : file_lines (f1 ++ f2) = file_lines f1 ++ file_lines f2.
Proof. unfold file_lines. apply flat_map_app. Qed.

Lemma file_lines_chart s :
  file_lines [(py "chart", VStr s)] = py "📈 " ++ s ++ py "\n".
Proof.
  unfold file_lines, flat_map, list_file. rewrite decide_True by reflexivity.
  rewrite app_nil_r. reflexivity.
Qed.

Lemma file_lines_pdf s :
  file_lines [(py "pdf", VStr s)] = py "📄 " ++ s ++ py "\n".
Proof.
  unfold file_lines, flat_map, list_file.
  rewrite decide_False by (vm_compute; discriminate).
  rewrite app_nil_r. reflexivity.
Qed.

Lemma add_generated_some files :
  files ≠ [] →
  add_generated files [] = py "## 📊 Generated Resources\n\n" ++ file_lines files ++ py "\n".
Proof. destruct files; [done|]. intros _. apply add_generated_cons. Qed.

Lemma synthesize_answer_qa_primary query rs plan qa :
  qa_primary_case rs qa →
  synthesize_answer query rs plan
  = qa_primary rs (collect_outputs rs) (VStr qa) (TITLE query).
Proof.
  intros (Hqa & Hlen & Hsorry). unfold synthesize_answer. cbv zeta.
  rewrite decide_False by (by eapply collect_outputs_nonempty).
  rewrite Hqa, is_substantial_text, bind_Returns.
  apply Nat.ltb_lt in Hlen. apply startswith_false in Hsorry.
  rewrite Hlen, Hsorry. reflexivity.
Qed.

(** ** Where a heading can occur in a text put together from pieces *)

(** An occurrence in [a ++ b] lies in [a], lies in [b], or straddles the
    seam. *)
Lemma occurs_app_inv (needle a b : pystr) :
  occurs needle (a ++ b) →
  occurs needle a ∨ occurs needle b
  ∨ ∃ h1 h2, needle = h1 ++ h2 ∧ h1 ≠ [] ∧ h2 ≠ []
             ∧ h1 `suffix_of` a ∧ h2 `prefix_of` b.
Proof.
  intros (pre & post & Heq).
  apply app_eq_inv in Heq as [(k & -> & Hk)|(k & -> & ->)].
  - apply app_eq_inv in Hk as [(k' & -> & ->)|(k' & -> & ->)].
    + destruct k as [|c k].
      * right. left. exists [], post. done.
      * destruct k' as [|d k'].
        -- left. exists pre, []. by rewrite !app_nil_r.
        -- right. right. exists (c :: k), (d :: k').
           repeat split; try done; [by exists pre | by exists post].
    + left. by exists pre, k'.
  - right. left. by exists k, post.
Qed.

Section Heading.

Variable H : pystr.
Hypothesis H_one_line : 10 ∉ H.

Lemma last_ends_nl (c : pystr) : last c = Some 10 → ends_nl c.
Proof.
  intros Hl. right. destruct c as [|x c] using rev_ind; [done|].
  rewrite last_snoc in Hl. injection Hl as ->. by exists c.
Qed.

Lemma free_seam_left (a b : pystr) c :
  c ∉ H → ¬ occurs H (a ++ [c]) → ¬ occurs H b → ¬ occurs H ((a ++ [c]) ++ b).
Proof.
  intros Hc Ha Hb Hocc.
  apply occurs_app_inv in Hocc as [?|[?|(h1 & h2 & -> & Hn1 & _ & Hsuf & _)]];
    [done..|].
  destruct h1 as [|x h1 _] using rev_ind; [done|].
  apply suffix_snoc_inv_1 in Hsuf as ->.
  apply Hc. rewrite !elem_of_app, list_elem_of_singleton. tauto.
Qed.

Lemma free_seam_right (a b : pystr) c :
  c ∉ H → ¬ occurs H a → ¬ occurs H (c :: b) → ¬ occurs H (a ++ c :: b).
Proof.
  intros Hc Ha Hb Hocc.
  apply occurs_app_inv in Hocc as [?|[?|(h1 & h2 & -> & _ & Hn2 & _ & Hpre)]];
    [done..|].
  destruct h2 as [|x h2]; [done|].
  apply prefix_cons_inv_1 in Hpre as ->.
  apply Hc. rewrite elem_of_app, elem_of_cons. tauto.
Qed.

Lemma free_seam_lit (lit b : pystr) :
  overlaps_end H lit = false →
  ¬ occurs H lit → ¬ occurs H b → ¬ occurs H (lit ++ b).
Proof.
  intros Hov Ha Hb Hocc.
  apply occurs_app_inv in Hocc as [?|[?|(h1 & h2 & HH & Hn1 & Hn2 & Hsuf & _)]];
    [done..|].
  assert (Hex : overlaps_end H lit = true); [|congruence].
  apply existsb_exists. exists (length h1). split.
  - apply in_seq. rewrite HH, length_app.
    destruct h1; [done|]. destruct h2; [done|]. simpl. lia.
  - apply bool_decide_eq_true_2. by rewrite HH, take_app_length.
Qed.

Lemma tidy_nil : ¬ occurs H [] → tidy H [].
Proof. intros Hf. split; [done | by left]. Qed.

Lemma tidy_app (a b : pystr) : tidy H a → tidy H b → tidy H (a ++ b).
Proof.
  intros [Ha Ea] [Hb Eb].
  destruct Ea as [->|[a' ->]]; [done|].
  split.
  - by apply free_seam_left.
  - destruct Eb as [->|[b' ->]].
    + rewrite app_nil_r. right. by exists a'.
    + right. exists ((a' ++ [10]) ++ b'). by rewrite <- !app_assoc.
Qed.

Lemma tidy_lit (lit : pystr) : lit_ok H lit = true → tidy H lit.
Proof.
  unfold lit_ok. rewrite andb_true_iff, negb_true_iff, contains_false.
  intros [Hf Hl]. split; [done|].
  apply last_ends_nl. by apply bool_decide_eq_true_1 in Hl.
Qed.

(** A text that is free of [H], set between two literals that pass the
    check, makes a tidy piece. *)
Lemma tidy_wrap (lit s tail : pystr) :
  wrap_ok H lit tail = true → ¬ occurs H s → tidy H (lit ++ s ++ tail).
Proof.
  unfold wrap_ok. rewrite !andb_true_iff, !negb_true_iff, !contains_false.
  intros ((((Hlit & Hov) & Htail) & Hstart) & Hlast) Hs.
  apply bool_decide_eq_true_1 in Hlast.
  split.
  - apply free_seam_lit; [done..|].
    destruct tail as [|c tail]; [done|]. simpl in Hstart.
    apply negb_true_iff, bool_decide_eq_false_1 in Hstart.
    by apply free_seam_right.
  - destruct (last_ends_nl _ Hlast) as [->|[t ->]]; [done|].
    right. exists (lit ++ s ++ t). by rewrite <- !app_assoc.
Qed.

Lemma free_take n (s : pystr) : ¬ occurs H s → ¬ occurs H (take n s).
Proof.
  intros Hs Hocc. apply Hs. rewrite <- (take_drop n s). by apply occurs_app_l.
Qed.

End Heading.

Lemma found_cases s :
  found s = [] ∨ found s = [(py "chart", VStr s)] ∨ found s = [(py "pdf", VStr s)].
Proof.
  unfold found. destruct (_ || _); [|by left].
  destruct (_ || _); [by right; left|].
  destruct (_ || _); [by right; right | by left].
Qed.

Section Resources.

Variable H : pystr.
Hypothesis H_one_line : 10 ∉ H.
Hypothesis H_nonempty : ¬ occurs H [].
Hypothesis H_chart : wrap_ok H (py "📈 ") (py "\n") = true.
Hypothesis H_pdf : wrap_ok H (py "📄 ") (py "\n") = true.
Hypothesis H_heading : lit_ok H (py "## 📊 Generated Resources\n\n") = true.
Hypothesis H_newline : lit_ok H (py "\n") = true.

Lemma tidy_file_lines rs :
  outputs_free H rs → tidy H (file_lines (found_all rs)).
Proof.
  induction rs as [|r rs IH]; intros Hfree.
  - by apply tidy_nil.
  - apply Forall_cons in Hfree as [Hr Hrs].
    change (found_all (r :: rs))
      with (found (py_str (raw_output r)) ++ found_all rs).
    rewrite file_lines_app. apply tidy_app; [done| |by apply IH].
    destruct (found_cases (py_str (raw_output r))) as [->|[->| ->]].
    + by apply tidy_nil.
    + rewrite file_lines_chart. by apply tidy_wrap.
    + rewrite file_lines_pdf. by apply tidy_wrap.
Qed.

Lemma tidy_add_generated rs :
  outputs_free H rs → tidy H (add_generated (found_all rs) []).
Proof.
  intros Hfree. destruct (found_all rs) as [|f files] eqn:Hf.
  - by apply tidy_nil.
  - rewrite add_generated_cons, <- Hf.
    apply tidy_app; [done|by apply tidy_lit|].
    apply tidy_app; [done|by apply tidy_file_lines|by apply tidy_lit].
Qed.

End Resources.

(** ** The QA-primary path and the "Key Insights" heading *)

Lemma KEY_INSIGHTS_one_line : 10 ∉ KEY_INSIGHTS.
Proof. apply (bool_decide_eq_false_1 (10 ∈ KEY_INSIGHTS)). vm_compute. reflexivity. Qed.

Lemma KEY_INSIGHTS_nonempty : ¬ occurs KEY_INSIGHTS [].
Proof. apply contains_false. vm_compute. reflexivity. Qed.

Ltac by_check := vm_compute; reflexivity.

Lemma tidy_shown outputs key n heading c flag flag' :
  wrap_ok KEY_INSIGHTS heading (py "\n\n") = true →
  (∀ s, outputs !! key = Some (VStr s) → ¬ occurs KEY_INSIGHTS s) →
  shown_if_longer outputs key n heading c flag flag' →
  tidy KEY_INSIGHTS c.
Proof.
  intros Hok Hfree [(-> & _)|(s & Hs & _ & -> & _)].
  - apply tidy_nil, KEY_INSIGHTS_nonempty.
  - apply tidy_wrap; [apply KEY_INSIGHTS_one_line|done|]. by apply Hfree.
Qed.

Lemma tidy_wiki_shown outputs c flag flag' :
  (∀ s, outputs !! py "wikipedia_search" = Some (VStr s) →
        ¬ occurs KEY_INSIGHTS s) →
  wiki_shown outputs c flag flag' →
  tidy KEY_INSIGHTS c.
Proof.
  intros Hfree [(-> & _)|(s & Hs & _ & _ & [[_ ->]|[_ ->]])].
  - apply tidy_nil, KEY_INSIGHTS_nonempty.
  - apply tidy_wrap; [apply KEY_INSIGHTS_one_line|by_check|]. by apply Hfree.
  - replace (py "### 📖 Wikipedia Background\n\n" ++ take 800 s ++ py "...\n\n"
             ++ DETAILS_OPEN ++ s ++ py "\n\n</details>\n\n")
      with ((py "### 📖 Wikipedia Background\n\n" ++ take 800 s ++ py "...\n\n")
            ++ (DETAILS_OPEN ++ s ++ py "\n\n</details>\n\n"))
      by (by rewrite <- !app_assoc).
    apply tidy_app; [apply KEY_INSIGHTS_one_line| |].
    + apply tidy_wrap; [apply KEY_INSIGHTS_one_line|by_check|]. apply free_take. by apply Hfree.
    + apply tidy_wrap; [apply KEY_INSIGHTS_one_line|by_check|]. by apply Hfree.
Qed.

Lemma stored_texts_free (needle : pystr) rs :
  Forall text_output rs →
  outputs_free needle rs →
  ∀ k s, collect_outputs rs !! k = Some (VStr s) → ¬ occurs needle s.
Proof.
  intros Hall Hfree k s Hs.
  destruct (collect_outputs_text _ _ _ Hall Hs) as (s' & r & [= <-] & Hin & Hr).
  unfold outputs_free in Hfree. rewrite Forall_forall in Hfree.
  specialize (Hfree r Hin). by rewrite Hr in Hfree.
Qed.

(** ** The fallback path with the Wikipedia text alone *)

Lemma bind_mret {A B : Type} (a : A) (f : A → outcome B) : (mret a ≫= f) = f a.
Proof. reflexivity. Qed.

Lemma text_neq (a b : pystr) : bool_decide (a = b) = false → a ≠ b.
Proof. apply bool_decide_eq_false_1. Qed.

Lemma key_insights_wikipedia_only query w :
  _generate_key_insights query (<[py "wikipedia_search" := VStr w]> ∅)
  = py "**Information Sources:**\n"
    ++ (py "✓ **Foundational knowledge** about " ++ query
        ++ py " has been retrieved from Wikipedia")
    ++ py "\n\nThis comprehensive analysis of **" ++ query
    ++ py "** combines information from multiple authoritative sources to give you a complete picture.".
Proof.
  unfold _generate_key_insights, has_key. eval_bool_decide.
  cbv beta iota zeta. cbn [app join]. rewrite <- !app_assoc. reflexivity.
Qed.

Lemma fallback_wikipedia_only query w a :
  (50 < length w)%nat →
  fallback query [ok_record "wikipedia_search" w]
           (<[py "wikipedia_search" := VStr w]> ∅) a
  = Returns (a ++ (py "## 📚 Background\n\n" ++ w ++ py "\n\n")
             ++ (py "## 🎯 Key Insights\n\n"
                 ++ _generate_key_insights query
                      (<[py "wikipedia_search" := VStr w]> ∅)
                 ++ py "\n\n")
             ++ add_generated (found w) [] ++ FB_FOOT).
Proof.
  intros Hlen. apply Nat.ltb_lt in Hlen.
  set (outputs := <[py "wikipedia_search" := VStr w]> ∅).
  assert (Hw : outputs !! py "wikipedia_search" = Some (VStr w))
    by apply lookup_insert_eq.
  assert (Hx : outputs !! py "arxiv_summarizer" = None).
  { unfold outputs. rewrite lookup_insert_ne by (apply text_neq; by_check).
    apply lookup_empty. }
  assert (Hn : outputs !! py "news_fetcher" = None).
  { unfold outputs. rewrite lookup_insert_ne by (apply text_neq; by_check).
    apply lookup_empty. }
  assert (Hs : outputs !! py "sentiment_analyzer" = None).
  { unfold outputs. rewrite lookup_insert_ne by (apply text_neq; by_check).
    apply lookup_empty. }
  unfold fallback. cbv zeta.
  unfold fb_wikipedia. rewrite Hw, py_len_text, bind_Returns, Hlen.
  rewrite py_add_text, bind_Returns, bind_mret.
  unfold fb_arxiv. rewrite Hx, bind_mret.
  unfold fb_news. rewrite Hn, bind_mret.
  unfold fb_sentiment. rewrite Hs, bind_mret.
  rewrite scan_generated_text by (repeat constructor; eexists; reflexivity).
  rewrite bind_Returns.
  change (found_all [ok_record "wikipedia_search" w]) with (found w ++ []).
  rewrite app_nil_r, add_generated_app.
  unfold mret, outcome_ret, FB_FOOT. apply (f_equal Returns).
  rewrite <- !app_assoc. reflexivity.
Qed.

Lemma synthesize_answer_wikipedia_only query w plan :
  (50 < length w)%nat →
  ¬ py "Error:" `prefix_of` w →
  synthesize_answer query [ok_record "wikipedia_search" w] plan
  = Returns (TITLE query ++ (py "## 📚 Background\n\n" ++ w ++ py "\n\n")
             ++ (py "## 🎯 Key Insights\n\n"
                 ++ _generate_key_insights query
                      (<[py "wikipedia_search" := VStr w]> ∅)
                 ++ py "\n\n")
             ++ add_generated (found w) [] ++ FB_FOOT).
Proof.
  intros Hlen Herr.
  assert (Hout : collect_outputs [ok_record "wikipedia_search" w]
                 = <[py "wikipedia_search" := VStr w]> ∅).
  { change (collect_outputs [ok_record "wikipedia_search" w])
      with (store_output ∅ (ok_record "wikipedia_search" w)).
    rewrite store_output_kept; [reflexivity|].
    split; [reflexivity|]. split; [|done].
    intros ->. simpl in Hlen. lia. }
  unfold synthesize_answer. cbv zeta. rewrite Hout.
  rewrite decide_False by apply insert_non_empty.
  rewrite lookup_insert_ne by (apply text_neq; by_check).
  rewrite lookup_empty.
  apply fallback_wikipedia_only, Hlen.
Qed.

Lemma FACTUAL_HEADING_one_line : 10 ∉ FACTUAL_HEADING.
Proof.
  apply (bool_decide_eq_false_1 (10 ∈ FACTUAL_HEADING)). vm_compute. reflexivity.
Qed.

Lemma FACTUAL_HEADING_nonempty : ¬ occurs FACTUAL_HEADING [].
Proof. apply contains_false. vm_compute. reflexivity. Qed.

(** * The claims *)

(** C1, as amended.  When every record's output is a text, the composer
    returns a non-empty text.  If no record passes the outcome filter, that
    text is the fixed notice; otherwise it opens with the title line and so
    contains the literal query. *)
Theorem answer_nonempty_and_titled query rs plan :
  Forall text_output rs →
  ∃ answer, synthesize_answer query rs plan = Returns answer
    ∧ answer ≠ []
    ∧ (collect_outputs rs = ∅ → answer = NO_RESULTS)
    ∧ (collect_outputs rs ≠ ∅ → TITLE query `prefix_of` answer ∧ occurs query answer).
Proof.
  intros Hall.
  destruct (synthesize_answer_text query rs plan Hall)
    as [[He ->]|(Hne & c & foot & ->)].
  - exists NO_RESULTS. repeat split; try done.
  - eexists. split; [reflexivity|]. split; [apply TITLE_nonempty|].
    split; [done|]. intros _. split; [by eexists | apply title_occurs].
Qed.

(** C1 on one Wikipedia record. *)
Lemma answer_nonempty_and_titled_witness :
  let rs := [ok_record "wikipedia_search" (py "Quantum computing uses qubits.")] in
  Forall text_output rs
  ∧ collect_outputs rs ≠ ∅
  ∧ ∃ answer, synthesize_answer (py "quantum computing") rs ∅ = Returns answer
      ∧ answer ≠ []
      ∧ TITLE (py "quantum computing") `prefix_of` answer
      ∧ occurs (py "quantum computing") answer.
Proof.
  intros rs.
  assert (Hall : Forall text_output rs).
  { repeat constructor. eexists. reflexivity. }
  assert (Hne : collect_outputs rs ≠ ∅).
  { apply (collect_outputs_nonempty _ (py "wikipedia_search")
             (VStr (py "Quantum computing uses qubits."))).
    vm_compute. reflexivity. }
  split; [exact Hall|]. split; [exact Hne|].
  destruct (answer_nonempty_and_titled (py "quantum computing") rs ∅ Hall)
    as (answer & Hret & Hnil & _ & Htitle).
  exists answer. split; [exact Hret|]. split; [exact Hnil|]. exact (Htitle Hne).
Defined.

(** C1 as stated fails on the empty sequence of records: the fixed notice is
    returned, and it does not contain the query. *)
Lemma answer_contains_query_counterexample :
  ¬ ∃ answer, synthesize_answer (py "quantum computing") [] ∅ = Returns answer
      ∧ answer ≠ [] ∧ occurs (py "quantum computing") answer.
Proof.
  intros (answer & Hret & _ & Hocc).
  rewrite synthesize_answer_no_outputs in Hret by reflexivity.
  injection Hret as <-.
  apply contains_occurs in Hocc. vm_compute in Hocc. discriminate.
Qed.

(** C2.  A record of the documented shape whose output is a mapping makes
    the composer raise (in the resource scan, which calls [lower] on the raw
    output), and so does a successful record whose output is neither a text
    nor a mapping, although the outcome filter has coerced it to text. *)
Theorem mapping_output_raises :
  synthesize_answer (py "quantum computing")
    [Result (Some (py "document_parser")) (Some (py "success"))
            (Some (VDict [py "pages"] (py "{'pages': 3}")))] ∅ = Raises
  ∧ synthesize_answer (py "quantum computing")
      [Result (Some (py "sentiment_analyzer")) (Some (py "success"))
              (Some (VOther (py "0.75")))] ∅ = Raises
  ∧ synthesize_answer (py "quantum computing")
      [ok_record "wikipedia_search" (py "Quantum computing uses qubits.");
       Result (Some (py "document_parser")) (Some (py "failure"))
              (Some (VDict [] (py "{}")))] ∅ = Raises.
Proof. repeat split; vm_compute; reflexivity. Qed.

(** C3, as amended.  A tool identifier has an entry in the mapping exactly
    when some record with that identifier has status "success" and a usable
    output: any mapping, any other non-text value, or a text that is not
    empty and does not start with "Error:".  Such a record's output is what
    is stored under its identifier unless a later such record has the same
    identifier. *)
Theorem outcome_filter_rule (rs : list record) :
  (∀ k, is_Some (collect_outputs rs !! k)
        ↔ ∃ r, r ∈ rs ∧ succeeded r ∧ usable (raw_output r) ∧ tool_name r = k)
  ∧ (∀ rs1 r rs2,
        rs = rs1 ++ r :: rs2 →
        succeeded r → usable (raw_output r) →
        (∀ r', r' ∈ rs2 → succeeded r' → usable (raw_output r') →
               tool_name r' ≠ tool_name r) →
        collect_outputs rs !! tool_name r = Some (as_stored (raw_output r))).
Proof.
  split.
  - intros k. rewrite collect_outputs_is_Some. unfold kept.
    split; intros (r & ? & ?); exists r; tauto.
  - intros rs1 r rs2 -> Hs Hu Hlater. apply collect_outputs_last; [done|].
    intros r' Hin [Hs' Hu']. by apply Hlater.
Qed.

(** C3 on a text record followed by a mapping record. *)
Lemma outcome_filter_rule_witness :
  let r1 := ok_record "wikipedia_search" (py "Quantum computing uses qubits.") in
  let r2 := Result (Some (py "sentiment_analyzer")) (Some (py "success"))
                   (Some (VDict [py "score"] (py "{'score': 1}"))) in
  collect_outputs [r1; r2] !! py "wikipedia_search"
  = Some (VStr (py "Quantum computing uses qubits."))
  ∧ collect_outputs [r1; r2] !! py "sentiment_analyzer"
    = Some (VDict [py "score"] (py "{'score': 1}")).
Proof.
  intros r1 r2. split.
  - apply (proj2 (outcome_filter_rule [r1; r2]) [] r1 [r2]).
    + reflexivity.
    + reflexivity.
    + split; [discriminate|]. apply startswith_false. reflexivity.
    + intros r' Hin _ _. apply list_elem_of_singleton in Hin as ->. discriminate.
  - apply (proj2 (outcome_filter_rule [r1; r2]) [r1] r2 []).
    + reflexivity.
    + reflexivity.
    + exact I.
    + intros r' Hin. by apply elem_of_nil in Hin.
Defined.

(** C3 as stated fails for a successful record whose text output is empty:
    it does not start with "Error:", yet nothing is stored for its tool. *)
Lemma outcome_filter_counterexample :
  let r := ok_record "wikipedia_search" [] in
  ¬ (succeeded r → ∀ s, raw_output r = VStr s → ¬ py "Error:" `prefix_of` s →
     collect_outputs [r] !! tool_name r = Some (VStr s)).
Proof.
  intros r H.
  specialize (H eq_refl [] eq_refl).
  assert (Hno : ¬ py "Error:" `prefix_of` ([] : pystr)).
  { apply startswith_false. reflexivity. }
  specialize (H Hno). vm_compute in H. discriminate.
Qed.

(** C4.  If every record has status "failure", or every successful record's
    output is a text starting with "Error:", the composer returns exactly
    the fixed notice. *)
Theorem total_failure_notice query rs plan :
  Forall (fun r => status r = Some (py "failure")) rs
  ∨ Forall (fun r => succeeded r →
                     ∃ s, output r = Some (VStr s) ∧ py "Error:" `prefix_of` s) rs →
  synthesize_answer query rs plan = Returns NO_RESULTS.
Proof.
  intros H. apply synthesize_answer_no_outputs, collect_outputs_empty.
  destruct H as [H|H]; eapply Forall_impl; try exact H; simpl.
  - intros r Hf [Hs _]. unfold succeeded in Hs. rewrite Hf in Hs. discriminate.
  - intros r He [Hs Hu]. destruct (He Hs) as (s & Ho & Hp).
    unfold raw_output in Hu. rewrite Ho in Hu. simpl in Hu. tauto.
Qed.

(** C4 on two failed records, and on a failed record with an error-prefixed success. *)
Lemma total_failure_notice_witness :
  synthesize_answer (py "quantum computing")
    [failed_record "wikipedia_search" (py "timeout");
     failed_record "qa_engine" (py "unavailable")] ∅ = Returns NO_RESULTS
  ∧ synthesize_answer (py "quantum computing")
      [failed_record "wikipedia_search" (py "timeout");
       ok_record "qa_engine" (py "Error: model unavailable")] ∅
    = Returns NO_RESULTS.
Proof.
  split.
  - apply total_failure_notice. left. repeat constructor.
  - apply total_failure_notice. right. repeat constructor.
    + intros Hs. discriminate Hs.
    + intros _. exists (py "Error: model unavailable").
      split; [reflexivity|]. apply startswith_prefix. reflexivity.
Defined.

(** C5, as amended.  In the QA-primary case, with every record's output a
    text, the composer returns an answer that contains the QA text verbatim;
    and if neither the query nor any record's output text contains the
    "Key Insights" heading, the answer does not contain it either. *)
Theorem qa_primary_precedence query rs plan qa :
  Forall text_output rs →
  qa_primary_case rs qa →
  ∃ answer, synthesize_answer query rs plan = Returns answer
    ∧ occurs qa answer
    ∧ (¬ occurs KEY_INSIGHTS query → outputs_free KEY_INSIGHTS rs →
       ¬ occurs KEY_INSIGHTS answer).
Proof.
  intros Hall Hcase.
  rewrite (synthesize_answer_qa_primary _ _ _ _ Hcase).
  destruct (qa_primary_text rs _ qa (TITLE query)
              (collect_outputs_text_map _ Hall) Hall)
    as (ca & cw & cn & h1 & h2 & h3 & Ha & Hw & Hn & ->).
  eexists. split; [reflexivity|]. split.
  - apply occurs_app_r, occurs_app_l, occurs_prefix. by exists (py "\n\n").
  - intros Hq Hfree.
    pose proof (stored_texts_free _ _ Hall Hfree) as Hstored.
    pose proof KEY_INSIGHTS_one_line as Hnl.
    pose proof KEY_INSIGHTS_nonempty as Hne.
    assert (Hqa : ¬ occurs KEY_INSIGHTS qa).
    { destruct Hcase as [Hqa _]. by eapply Hstored. }
    apply (tidy_app _ Hnl).
    { unfold TITLE. apply tidy_wrap; [done|by_check|done]. }
    apply (tidy_app _ Hnl).
    { apply (tidy_wrap _ Hnl [] qa (py "\n\n")); [by_check|done]. }
    apply (tidy_app _ Hnl); [apply tidy_lit; by_check|].
    apply (tidy_app _ Hnl).
    { eapply tidy_shown; [|by eauto|exact Ha]. by_check. }
    apply (tidy_app _ Hnl).
    { eapply tidy_wiki_shown; [by eauto|exact Hw]. }
    apply (tidy_app _ Hnl).
    { eapply tidy_shown; [|by eauto|exact Hn]. by_check. }
    apply (tidy_app _ Hnl).
    { destruct h3; [by apply tidy_nil | apply tidy_lit; by_check]. }
    apply (tidy_app _ Hnl); [|apply tidy_lit; by_check].
    apply tidy_add_generated; try done; by_check.
Qed.

(** C5 on a QA text of 301 characters with a Wikipedia text and a failed chart record. *)
Lemma qa_primary_precedence_witness :
  let qa := replicate 301 97 in
  let rs := [ok_record "qa_engine" qa;
             ok_record "wikipedia_search" (replicate 60 98);
             failed_record "chart_generator" (py "Generated Chart")] in
  ∃ answer, synthesize_answer (py "quantum computing") rs ∅ = Returns answer
    ∧ occurs qa answer
    ∧ ¬ occurs KEY_INSIGHTS answer.
Proof.
  intros qa rs.
  assert (Hall : Forall text_output rs).
  { repeat constructor; eexists; reflexivity. }
  assert (Hcase : qa_primary_case rs qa).
  { split; [vm_compute; reflexivity|]. split.
    - unfold qa. rewrite length_replicate. lia.
    - apply startswith_false. vm_compute. reflexivity. }
  destruct (qa_primary_precedence (py "quantum computing") rs ∅ qa Hall Hcase)
    as (answer & Hret & Hqa & Hfree).
  exists answer. split; [exact Hret|]. split; [exact Hqa|].
  apply Hfree.
  - apply contains_false. vm_compute. reflexivity.
  - repeat constructor; apply contains_false; vm_compute; reflexivity.
Defined.

(** C5 as stated fails when the QA text itself carries the heading: it is
    copied into the answer verbatim. *)
Lemma qa_primary_precedence_counterexample :
  let qa := KEY_INSIGHTS ++ replicate 300 97 in
  let rs := [ok_record "qa_engine" qa] in
  qa_primary_case rs qa
  ∧ ∃ answer, synthesize_answer (py "quantum computing") rs ∅ = Returns answer
      ∧ occurs KEY_INSIGHTS answer.
Proof.
  intros qa rs. split.
  - split; [vm_compute; reflexivity|]. split.
    + apply Nat.ltb_lt. vm_compute. reflexivity.
    + apply startswith_false. vm_compute. reflexivity.
  - eexists. split; [vm_compute; reflexivity|].
    apply contains_occurs. vm_compute. reflexivity.
Qed.

(** In the QA-primary case, with every record's output a text, a
    Wikipedia text of exactly 850 characters is shown as its first 800
    characters followed by "...", and then once more in full inside the
    collapsible block. *)
Lemma qa_primary_wikipedia_truncated query rs plan qa w :
  Forall text_output rs →
  qa_primary_case rs qa →
  collect_outputs rs !! py "wikipedia_search" = Some (VStr w) →
  length w = 850%nat →
  ∃ pre post,
    synthesize_answer query rs plan
    = Returns (pre ++ (py "### 📖 Wikipedia Background\n\n"
                       ++ take 800 w ++ py "...\n\n"
                       ++ DETAILS_OPEN ++ w ++ py "\n\n</details>\n\n")
               ++ post).
Proof.
  intros Hall Hcase Hw Hlen.
  rewrite (synthesize_answer_qa_primary _ _ _ _ Hcase).
  destruct (qa_primary_text rs _ qa (TITLE query)
              (collect_outputs_text_map _ Hall) Hall)
    as (ca & cw & cn & h1 & h2 & h3 & _ & Hshape & _ & ->).
  destruct Hshape as [(_ & _ & Hshort)|(s & Hs & _ & _ & Hcut)].
  - specialize (Hshort w Hw). lia.
  - rewrite Hw in Hs. injection Hs as <-.
    destruct Hcut as [[Hle _]|[_ ->]]; [lia|].
    exists (TITLE query ++ (qa ++ py "\n\n") ++ QA_HEAD ++ ca),
           (cn ++ (if h3 then [] else QA_NOTE)
            ++ add_generated (found_all rs) [] ++ QA_FOOT).
    apply (f_equal Returns). rewrite <- !app_assoc. reflexivity.
Qed.

(** The same on a QA text of 301 characters and a Wikipedia text of 850. *)
Lemma qa_primary_wikipedia_truncated_witness :
  let qa := replicate 301 97 in
  let w := replicate 850 98 in
  let rs := [ok_record "qa_engine" qa; ok_record "wikipedia_search" w] in
  ∃ pre post,
    synthesize_answer (py "quantum computing") rs ∅
    = Returns (pre ++ (py "### 📖 Wikipedia Background\n\n"
                       ++ take 800 w ++ py "...\n\n"
                       ++ DETAILS_OPEN ++ w ++ py "\n\n</details>\n\n")
               ++ post).
Proof.
  intros qa w rs.
  apply (qa_primary_wikipedia_truncated (py "quantum computing") rs ∅ qa w).
  - repeat constructor; eexists; reflexivity.
  - split; [vm_compute; reflexivity|]. split.
    + unfold qa. rewrite length_replicate. lia.
    + apply startswith_false. vm_compute. reflexivity.
  - vm_compute. reflexivity.
  - unfold w. apply length_replicate.
Defined.

(** C6.  The QA-primary case with a Wikipedia text of exactly 850
    characters does not always give the answer the claim describes: when
    a further record, here a failed one, carries a mapping as its output,
    the conditions of the claim hold and the composer raises in the
    resource scan of lines 96 to 98, which calls [lower] on every raw
    output.  Without that record the answer is returned and has the cut
    text and the full text, as the claim says. *)
Theorem qa_primary_wikipedia_mapping_raises :
  let qa := replicate 301 97 in
  let w := replicate 850 98 in
  let texts := [ok_record "qa_engine" qa; ok_record "wikipedia_search" w] in
  let rs := texts ++ [Result (Some (py "document_parser")) (Some (py "failure"))
                             (Some (VDict [py "pages"] (py "{'pages': 3}")))] in
  qa_primary_case rs qa
  ∧ collect_outputs rs !! py "wikipedia_search" = Some (VStr w)
  ∧ length w = 850%nat
  ∧ synthesize_answer (py "quantum computing") rs ∅ = Raises
  ∧ ∃ pre post,
      synthesize_answer (py "quantum computing") texts ∅
      = Returns (pre ++ (py "### 📖 Wikipedia Background\n\n"
                         ++ take 800 w ++ py "...\n\n"
                         ++ DETAILS_OPEN ++ w ++ py "\n\n</details>\n\n")
                 ++ post).
Proof.
  intros qa w texts rs.
  assert (Hcase : ∀ l, collect_outputs l !! py "qa_engine" = Some (VStr qa) →
                       qa_primary_case l qa).
  { intros l Hl. split; [exact Hl|]. split.
    - unfold qa. rewrite length_replicate. lia.
    - apply startswith_false. vm_compute. reflexivity. }
  split; [apply Hcase; vm_compute; reflexivity|].
  split; [vm_compute; reflexivity|].
  split; [apply length_replicate|].
  split; [vm_compute; reflexivity|].
  apply (qa_primary_wikipedia_truncated (py "quantum computing") texts ∅ qa w).
  - repeat constructor; eexists; reflexivity.
  - apply Hcase. vm_compute. reflexivity.
  - vm_compute. reflexivity.
  - apply length_replicate.
Qed.

(** C7, as amended.  When every record's output is a text and at least one
    record passes the outcome filter, a record with status "failure" whose
    output text contains "successfully created chart.png" has its chart
    entry in the "Generated Resources" section of the answer, after the
    entries of the records before it and before those of the records after
    it. *)
Theorem failed_record_resource query rs1 r rs2 plan s :
  Forall text_output (rs1 ++ r :: rs2) →
  collect_outputs (rs1 ++ r :: rs2) ≠ ∅ →
  status r = Some (py "failure") →
  raw_output r = VStr s →
  occurs (py "successfully created chart.png") s →
  ∃ pre post,
    synthesize_answer query (rs1 ++ r :: rs2) plan
    = Returns (pre ++ py "## 📊 Generated Resources\n\n"
               ++ file_lines (found_all rs1)
               ++ (py "📈 " ++ s ++ py "\n")
               ++ file_lines (found_all rs2) ++ py "\n" ++ post).
Proof.
  intros Hall Hne _ Hr Hocc.
  destruct (synthesize_answer_text query _ plan Hall)
    as [[He _]|(_ & c & foot & ->)]; [done|].
  exists (TITLE query ++ c), foot. f_equal.
  assert (Hf : found_all (rs1 ++ r :: rs2)
               = found_all rs1 ++ [(py "chart", VStr s)] ++ found_all rs2).
  { rewrite found_all_app. f_equal. unfold found_all at 1. simpl.
    rewrite Hr. simpl. by rewrite (found_chart s Hocc). }
  rewrite Hf, add_generated_some by (by destruct (found_all rs1)).
  rewrite !file_lines_app, file_lines_chart. rewrite <- !app_assoc. reflexivity.
Qed.

(** C7 on a Wikipedia record followed by the failed chart record. *)
Lemma failed_record_resource_witness :
  let r := failed_record "chart_generator" (py "successfully created chart.png") in
  let w := ok_record "wikipedia_search" (py "Quantum computing uses qubits.") in
  ∃ pre post,
    synthesize_answer (py "quantum computing") ([w] ++ r :: []) ∅
    = Returns (pre ++ py "## 📊 Generated Resources\n\n"
               ++ file_lines (found_all [w])
               ++ (py "📈 " ++ py "successfully created chart.png" ++ py "\n")
               ++ file_lines (found_all []) ++ py "\n" ++ post).
Proof.
  intros r w.
  apply (failed_record_resource (py "quantum computing") [w] r [] ∅).
  - repeat constructor; eexists; reflexivity.
  - apply (collect_outputs_nonempty _ (py "wikipedia_search")
             (VStr (py "Quantum computing uses qubits."))).
    vm_compute. reflexivity.
  - reflexivity.
  - reflexivity.
  - apply contains_occurs. reflexivity.
Defined.

(** C7 as stated fails when the failed record is the only one: the outcome
    filter finds nothing, the fixed notice is returned, and it has no
    "Generated Resources" section. *)
Lemma failed_record_resource_counterexample :
  let r := failed_record "chart_generator" (py "successfully created chart.png") in
  ¬ ∃ answer, synthesize_answer (py "quantum computing") [r] ∅ = Returns answer
      ∧ occurs (py "Generated Resources") answer.
Proof.
  intros r (answer & Hret & Hocc).
  rewrite synthesize_answer_no_outputs in Hret by reflexivity.
  injection Hret as <-.
  apply contains_occurs in Hocc. vm_compute in Hocc. discriminate.
Qed.

(** C8.  The summary closes with the number of records whose status is
    "success", whatever their tool identifiers; for the three tools
    qa_engine, unknown_tool_x and wikipedia_search it has the clauses of the
    first and the third only, and states the total 3. *)
Theorem summary_counts_every_success :
  (∀ query rs,
      Exists succeeded rs →
      ∃ body, create_executive_summary query rs
              = body ++ py "Total of " ++ str_of_nat (length (filter succeeded rs))
                ++ py " information sources consulted.")
  ∧ (∀ query o1 o2 o3,
        create_executive_summary query
          [Result (Some (py "qa_engine")) (Some (py "success")) o1;
           Result (Some (py "unknown_tool_x")) (Some (py "success")) o2;
           Result (Some (py "wikipedia_search")) (Some (py "success")) o3]
        = py "Regarding **" ++ query ++ py "**: "
          ++ py "A direct answer has been provided based on available knowledge. "
          ++ py "Background information has been retrieved from Wikipedia. "
          ++ py "Total of 3 information sources consulted.").
Proof.
  split.
  - intros query rs Hex. rewrite <- successful_tools_length.
    apply summary_total. intros Hnil.
    apply (f_equal length) in Hnil. rewrite successful_tools_length in Hnil.
    apply Exists_exists in Hex as (r & Hin & Hs).
    assert (Hin' : r ∈ filter succeeded rs) by (apply list_elem_of_filter; done).
    destruct (filter succeeded rs); [by apply elem_of_nil in Hin' | done].
  - intros query o1 o2 o3. unfold create_executive_summary. cbv zeta.
    change (successful_tools _)
      with [py "qa_engine"; py "unknown_tool_x"; py "wikipedia_search"].
    cbv iota.
    eval_bool_decide. cbv iota.
    rewrite <- !app_assoc.
    do 5 (apply (f_equal (app _))). vm_compute. reflexivity.
Qed.

(** C8 on two successes around a failure. *)
Lemma summary_counts_every_success_witness :
  ∃ body, create_executive_summary (py "quantum computing")
            [ok_record "qa_engine" (py "Qubits."); failed_record "news_fetcher" [];
             ok_record "unknown_tool_x" (py "42")]
          = body ++ py "Total of "
            ++ str_of_nat (length (filter succeeded
                 [ok_record "qa_engine" (py "Qubits."); failed_record "news_fetcher" [];
                  ok_record "unknown_tool_x" (py "42")]))
            ++ py " information sources consulted.".
Proof.
  apply (proj1 summary_counts_every_success).
  apply Exists_cons_hd. reflexivity.
Defined.

(** C9.  For the query "quantum computing" and one successful
    wikipedia_search record with a text of 600 characters (a text that is
    not itself an error message and does not already hold the "Factual
    Sources" heading), the answer has the "Background" heading followed by
    the full text, a "Key Insights" section that names Wikipedia as a
    source, the completion footer at its end, and no "Factual Sources"
    heading. *)
Theorem single_wikipedia_scenario w plan :
  length w = 600%nat →
  ¬ py "Error:" `prefix_of` w →
  ¬ occurs FACTUAL_HEADING w →
  ∃ answer,
    synthesize_answer (py "quantum computing")
      [ok_record "wikipedia_search" w] plan = Returns answer
    ∧ occurs (py "## 📚 Background\n\n" ++ w ++ py "\n\n") answer
    ∧ occurs (py "## 🎯 Key Insights\n\n**Information Sources:**\n✓ **Foundational knowledge** about quantum computing has been retrieved from Wikipedia\n") answer
    ∧ FB_FOOT `suffix_of` answer
    ∧ ¬ occurs FACTUAL_HEADING answer.
Proof.
  intros Hlen Herr Hfree.
  rewrite synthesize_answer_wikipedia_only by (done || lia).
  rewrite key_insights_wikipedia_only.
  set (insights := py "## 🎯 Key Insights\n\n" ++ _ ++ py "\n\n").
  eexists. split; [reflexivity|].
  pose proof FACTUAL_HEADING_one_line as Hnl.
  pose proof FACTUAL_HEADING_nonempty as Hne.
  repeat split.
  - apply occurs_app_r, occurs_app_l, occurs_refl.
  - apply occurs_app_r, occurs_app_r, occurs_app_l.
    apply contains_occurs. by_check.
  - do 4 apply suffix_app_r. reflexivity.
  - apply (tidy_app _ Hnl); [apply tidy_lit; by_check|].
    apply (tidy_app _ Hnl); [apply tidy_wrap; [done|by_check|done]|].
    apply (tidy_app _ Hnl); [apply tidy_lit; by_check|].
    apply (tidy_app _ Hnl); [|apply tidy_lit; by_check].
    replace (found w) with (found_all [ok_record "wikipedia_search" w])
      by apply app_nil_r.
    apply tidy_add_generated; try done; try by_check.
    by repeat constructor.
Qed.

(** C9 on a text of twenty sentences of thirty characters. *)
Lemma single_wikipedia_scenario_witness :
  let w := concat (replicate 20 (py "Quantum computing uses qubits.")) in
  ∃ answer,
    synthesize_answer (py "quantum computing")
      [ok_record "wikipedia_search" w] ∅ = Returns answer
    ∧ occurs (py "## 📚 Background\n\n" ++ w ++ py "\n\n") answer
    ∧ occurs (py "## 🎯 Key Insights\n\n**Information Sources:**\n✓ **Foundational knowledge** about quantum computing has been retrieved from Wikipedia\n") answer
    ∧ FB_FOOT `suffix_of` answer
    ∧ ¬ occurs FACTUAL_HEADING answer.
Proof.
  intros w. apply (single_wikipedia_scenario w ∅).
  - vm_compute. reflexivity.
  - apply startswith_false. vm_compute. reflexivity.
  - apply contains_false. vm_compute. reflexivity.
Defined.

(** C10.  For a single record with status "success" and a text output that
    starts with "Error:", the composer returns the fixed notice, while the
    summary keeps the record among the successful tools and closes with a
    total of 1. *)
Theorem error_prefix_only_in_answer query tool_id rest plan :
  let r := Result tool_id (Some (py "success")) (Some (VStr (py "Error:" ++ rest))) in
  synthesize_answer query [r] plan = Returns NO_RESULTS
  ∧ successful_tools [r] = [default [] tool_id]
  ∧ ∃ body, create_executive_summary query [r]
            = body ++ py "Total of 1 information sources consulted.".
Proof.
  intros r. split; [|split].
  - apply synthesize_answer_no_outputs, collect_outputs_empty.
    repeat constructor. intros [_ [_ Hp]]. apply Hp. by eexists.
  - reflexivity.
  - destruct (summary_total query [r]) as [body Hb]; [done|].
    exists body. rewrite Hb. apply (f_equal (app body)). vm_compute. reflexivity.
Qed.

(** * Further properties of the composers *)

(** ** The outcome filter *)

Lemma store_output_not_succeeded outputs r :
  ¬ succeeded r → store_output outputs r = outputs.
Proof. intros Hs. apply store_output_skipped. intros [? _]. done. Qed.

(** X1.  Records whose status is not "success" play no part in the
    filtered outputs: dropping them from the list gives the same mapping. *)
Theorem collect_outputs_success_only (rs : list record) :
  collect_outputs (filter succeeded rs) = collect_outputs rs.
Proof.
  induction rs as [|r rs IH] using rev_ind; [done|].
  rewrite filter_app, collect_outputs_snoc.
  destruct (decide (succeeded r)) as [Hs|Hs].
  - rewrite (filter_cons_True succeeded r []) by done.
    change (filter succeeded []) with (@nil record).
    by rewrite collect_outputs_snoc, IH.
  - rewrite (filter_cons_False succeeded r []) by done.
    change (filter succeeded []) with (@nil record).
    by rewrite app_nil_r, IH, store_output_not_succeeded.
Qed.

(** ** When the answer composer returns, and what *)

Lemma text_output_dec (r : record) : {text_output r} + {¬ text_output r}.
Proof.
  unfold text_output. destruct (raw_output r) as [s|keys shown|shown].
  - left. by exists s.
  - right. by intros [s Hs].
  - right. by intros [s Hs].
Defined.

Lemma all_text_or_not (rs : list record) :
  Forall text_output rs ∨ Exists (fun r => ¬ text_output r) rs.
Proof.
  destruct (Forall_Exists_dec text_output (fun r => ¬ text_output r)
              text_output_dec rs); tauto.
Qed.

Lemma text_and_not (rs : list record) :
  Forall text_output rs → ¬ Exists (fun r => ¬ text_output r) rs.
Proof.
  intros Hall Hex. apply Exists_exists in Hex as (r & Hin & Hno).
  rewrite Forall_forall in Hall. by apply Hno, Hall.
Qed.

Lemma titled_not_notice query rest : TITLE query ++ rest ≠ NO_RESULTS.
Proof. unfold TITLE. vm_compute. discriminate. Qed.

Lemma raises_iff_non_text query rs plan :
  synthesize_answer query rs plan = Raises
  ↔ collect_outputs rs ≠ ∅ ∧ Exists (fun r => ¬ text_output r) rs.
Proof.
  split.
  - intros Hr. destruct (all_text_or_not rs) as [Hall|Hex].
    + destruct (synthesize_answer_text query rs plan Hall)
        as [[_ Heq]|(_ & c & foot & Heq)]; congruence.
    + split; [|done]. intros He.
      rewrite synthesize_answer_no_outputs in Hr by done. discriminate.
  - intros [Hne Hex]. by apply synthesize_answer_non_text.
Qed.

(** X2.  The composer raises exactly when some record passes the outcome
    filter and some record, of any status, has an output that is not a
    text. *)
Theorem synthesize_answer_raises_iff query rs plan :
  synthesize_answer query rs plan = Raises
  ↔ collect_outputs rs ≠ ∅ ∧ Exists (fun r => ¬ text_output r) rs.
Proof. apply raises_iff_non_text. Qed.

(** X3.  The composer returns the fixed notice exactly when no record
    passes the outcome filter. *)
Theorem synthesize_answer_notice_iff query rs plan :
  synthesize_answer query rs plan = Returns NO_RESULTS ↔ collect_outputs rs = ∅.
Proof.
  split; [|apply synthesize_answer_no_outputs].
  intros Hr. destruct (decide (collect_outputs rs = ∅)) as [|Hne]; [done|].
  exfalso. destruct (all_text_or_not rs) as [Hall|Hex].
  - destruct (synthesize_answer_text query rs plan Hall)
      as [[He _]|(_ & c & foot & Heq)]; [done|].
    rewrite Heq in Hr.
    apply (titled_not_notice query (c ++ add_generated (found_all rs) [] ++ foot)).
    congruence.
  - rewrite synthesize_answer_non_text in Hr by done. discriminate.
Qed.

(** ** The generated-resource scan *)

(** X4.  The resource scan raises exactly when some record has an output
    that is not a text, whatever the record's status. *)
Theorem scan_generated_raises_iff (rs : list record) :
  scan_generated rs = Raises ↔ Exists (fun r => ¬ text_output r) rs.
Proof.
  split.
  - intros Hr. destruct (all_text_or_not rs) as [Hall|Hex]; [|done].
    rewrite scan_generated_text in Hr by done. discriminate.
  - intros Hex. by apply scan_from_raises.
Qed.

Lemma orb_contains (a b s : pystr) :
  (contains a s || contains b s = true ↔ occurs a s ∨ occurs b s)
  ∧ (contains a s || contains b s = false ↔ ¬ (occurs a s ∨ occurs b s)).
Proof.
  rewrite orb_true_iff, orb_false_iff, !contains_occurs, !contains_false. tauto.
Qed.

Lemma elem_of_found kind v s :
  (kind, v) ∈ found s
  ↔ v = VStr s ∧ triggers s
    ∧ ((kind = py "chart" ∧ chart_hint s)
       ∨ (kind = py "pdf" ∧ ¬ chart_hint s ∧ pdf_hint s)).
Proof.
  unfold found, triggers, chart_hint, pdf_hint.
  destruct (contains (py "successfully created") (lower s)
            || contains (py "generated") (lower s)) eqn:T;
    destruct (contains (py ".png") s || contains (py "Chart") s) eqn:C;
    destruct (contains (py ".pdf") s || contains (py "PDF") s) eqn:P;
    apply orb_contains in T; apply orb_contains in C; apply orb_contains in P;
    rewrite ?list_elem_of_singleton, ?elem_of_nil;
    (split; [intros Hin; try done; injection Hin as -> ->; tauto
            | intros (-> & Ht & [[-> Hc]|(-> & Hc & Hp)]); tauto]).
Qed.

Lemma found_length s : (length (found s) ≤ 1)%nat.
Proof. destruct (found_cases s) as [->|[->| ->]]; simpl; lia. Qed.

Lemma found_all_cons r rs :
  found_all (r :: rs) = found (py_str (raw_output r)) ++ found_all rs.
Proof. reflexivity. Qed.

Lemma found_all_length rs : (length (found_all rs) ≤ length rs)%nat.
Proof.
  induction rs as [|r rs IH]; [done|].
  rewrite found_all_cons, length_app. simpl.
  pose proof (found_length (py_str (raw_output r))). lia.
Qed.

Lemma elem_of_found_all kind v rs :
  Forall text_output rs →
  (kind, v) ∈ found_all rs
  ↔ ∃ r s, r ∈ rs ∧ raw_output r = VStr s ∧ (kind, v) ∈ found s.
Proof.
  induction rs as [|r rs IH]; intros Hall.
  - split; [intros Hin; by apply elem_of_nil in Hin|].
    intros (r & s & Hin & _). by apply elem_of_nil in Hin.
  - apply Forall_cons in Hall as [[s0 Hs0] Hall].
    rewrite found_all_cons, elem_of_app, (IH Hall), Hs0. simpl. split.
    + intros [Hin|(r' & s & Hin & Hr & Hf)].
      * exists r, s0. rewrite elem_of_cons. tauto.
      * exists r', s. rewrite elem_of_cons. tauto.
    + intros (r' & s & Hin & Hr & Hf).
      apply elem_of_cons in Hin as [->|Hin].
      * left. rewrite Hs0 in Hr. by injection Hr as ->.
      * right. eauto.
Qed.

Lemma found_pick s : scan_pick s (found s).
Proof.
  unfold scan_pick, found, triggers, chart_hint, pdf_hint.
  destruct (contains (py "successfully created") (lower s)
            || contains (py "generated") (lower s)) eqn:T;
    destruct (contains (py ".png") s || contains (py "Chart") s) eqn:C;
    destruct (contains (py ".pdf") s || contains (py "PDF") s) eqn:P;
    apply orb_contains in T; apply orb_contains in C; apply orb_contains in P;
    tauto.
Qed.

Lemma found_all_picks (rs : list record) :
  Forall text_output rs →
  Forall2 (fun r pick => ∃ s, raw_output r = VStr s ∧ scan_pick s pick)
          rs (List.map (fun r => found (py_str (raw_output r))) rs).
Proof.
  induction 1 as [|r rs [s Hs] _ IH]; [constructor|].
  cbn [List.map]. constructor; [|exact IH].
  exists s. split; [exact Hs|]. rewrite Hs. apply found_pick.
Qed.

(** X5.  On records whose outputs are texts the scan returns the entries
    of the records put end to end in record order, each record adding at
    most one: none unless its text holds "successfully created" or
    "generated" in any letter case together with a hint; one chart entry
    carrying the whole text when the text also holds ".png" or "Chart";
    one pdf entry when it holds ".pdf" or "PDF" and no chart hint.  So the
    list has no more entries than there are records, and an entry is in it
    exactly when some record qualifies for it. *)
Theorem scan_generated_entries (rs : list record) :
  Forall text_output rs →
  ∃ files picks, scan_generated rs = Returns files
    ∧ files = concat picks
    ∧ Forall2 (fun r pick => ∃ s, raw_output r = VStr s ∧ scan_pick s pick)
              rs picks
    ∧ (length files ≤ length rs)%nat
    ∧ ∀ kind v,
        (kind, v) ∈ files
        ↔ ∃ r s, r ∈ rs ∧ raw_output r = VStr s ∧ v = VStr s ∧ triggers s
                 ∧ ((kind = py "chart" ∧ chart_hint s)
                    ∨ (kind = py "pdf" ∧ ¬ chart_hint s ∧ pdf_hint s)).
Proof.
  intros Hall.
  exists (found_all rs), (List.map (fun r => found (py_str (raw_output r))) rs).
  split; [by apply scan_generated_text|].
  split; [apply flat_map_concat_map|].
  split; [by apply found_all_picks|].
  split; [apply found_all_length|].
  intros kind v. rewrite (elem_of_found_all _ _ _ Hall).
  split; intros (r & s & Hin & Hr & H); exists r, s.
  - apply elem_of_found in H. tauto.
  - rewrite elem_of_found. tauto.
Qed.

(** X5 on a chart record, a report record and a record with no hint. *)
Lemma scan_generated_entries_witness :
  let rs := [failed_record "chart_generator" (py "Successfully Created chart.png");
             ok_record "report_builder" (py "Generated report.pdf");
             ok_record "qa_engine" (py "generated nothing to keep")] in
  ∃ files picks, scan_generated rs = Returns files
    ∧ files = concat picks
    ∧ Forall2 (fun r pick => ∃ s, raw_output r = VStr s ∧ scan_pick s pick)
              rs picks
    ∧ (length files ≤ length rs)%nat
    ∧ ∀ kind v,
        (kind, v) ∈ files
        ↔ ∃ r s, r ∈ rs ∧ raw_output r = VStr s ∧ v = VStr s ∧ triggers s
                 ∧ ((kind = py "chart" ∧ chart_hint s)
                    ∨ (kind = py "pdf" ∧ ¬ chart_hint s ∧ pdf_hint s)).
Proof.
  intros rs. apply (scan_generated_entries rs).
  repeat constructor; eexists; reflexivity.
Defined.

(** X18.  The scan keeps the order of the records and merges nothing: on
    text outputs, the scan of two lists put end to end is the scan of the
    first followed by the scan of the second. *)
Theorem scan_generated_app (rs1 rs2 : list record) :
  Forall text_output rs1 →
  Forall text_output rs2 →
  ∃ files1 files2,
    scan_generated rs1 = Returns files1
    ∧ scan_generated rs2 = Returns files2
    ∧ scan_generated (rs1 ++ rs2) = Returns (files1 ++ files2).
Proof.
  intros H1 H2. exists (found_all rs1), (found_all rs2).
  split; [by apply scan_generated_text|]. split; [by apply scan_generated_text|].
  rewrite scan_generated_text by (by apply Forall_app).
  by rewrite found_all_app.
Qed.

(** X18 on the same record listed twice. *)
Lemma scan_generated_app_witness :
  let r := ok_record "chart_generator" (py "successfully created chart.png") in
  ∃ files1 files2,
    scan_generated [r] = Returns files1
    ∧ scan_generated [r] = Returns files2
    ∧ scan_generated ([r] ++ [r]) = Returns (files1 ++ files2).
Proof.
  intros r. apply (scan_generated_app [r] [r]).
  - repeat constructor; eexists; reflexivity.
  - repeat constructor; eexists; reflexivity.
Defined.

(** ** The section synthesizers on a text *)

Lemma foldl_bullets (test : pystr → bool) (lines : list pystr) (a : pystr) :
  foldl (fun summary line =>
           if test line then summary ++ py "- " ++ strip line ++ py "\n"
           else summary) a lines
  = a ++ bullets (List.filter test lines).
Proof.
  revert a. induction lines as [|l lines IH]; intros a.
  - simpl. by rewrite app_nil_r.
  - cbn [foldl List.filter]. rewrite IH. destruct (test l).
    + unfold bullets. cbn [flat_map]. by rewrite <- !app_assoc.
    + done.
Qed.

Lemma py_in_text needle s : py_in needle (VStr s) = Returns (contains needle s).
Proof. reflexivity. Qed.

Lemma py_split_lines_text s : py_split_lines (VStr s) = Returns (split_lines s).
Proof. reflexivity. Qed.

Lemma _synthesize_arxiv_papers_summary query s :
  _synthesize_arxiv_papers query (VStr s) = Returns (arxiv_summary query s).
Proof.
  unfold _synthesize_arxiv_papers, arxiv_summary.
  rewrite py_in_text, bind_Returns.
  destruct (contains (py "Sample Paper") s);
    [unfold MOCK_PAPERS, mret, outcome_ret; reflexivity|].
  rewrite py_split_lines_text, bind_Returns. cbv zeta.
  rewrite foldl_bullets. unfold paper_lines, mret, outcome_ret.
  by rewrite <- !app_assoc.
Qed.

Lemma _synthesize_news_summary query s :
  _synthesize_news query (VStr s) = Returns (news_summary query s).
Proof.
  unfold _synthesize_news, news_summary.
  rewrite py_in_text, bind_Returns.
  destruct (contains (py "No recent news") s).
  - rewrite bind_mret. cbv beta iota delta [orb].
    unfold NO_NEWS, mret, outcome_ret. reflexivity.
  - rewrite py_len_text, bind_Returns, bind_mret. cbv beta iota delta [orb].
    destruct (length s <? 100)%nat;
      [unfold NO_NEWS, mret, outcome_ret; reflexivity|].
    rewrite py_split_lines_text, bind_Returns. cbv zeta.
    rewrite foldl_bullets. unfold news_lines, mret, outcome_ret.
    by rewrite <- !app_assoc.
Qed.

(** ** The layout of the two paths *)

Lemma stored_text_Some outputs key s :
  outputs !! key = Some (VStr s) → stored_text outputs key = s.
Proof. intros Hs. unfold stored_text. by rewrite Hs. Qed.

Lemma stored_text_None outputs key :
  outputs !! key = None → stored_text outputs key = [].
Proof. intros Hs. unfold stored_text. by rewrite Hs. Qed.

Lemma stored_text_short outputs key n :
  text_map outputs →
  (∀ s, outputs !! key = Some (VStr s) → (length s ≤ n)%nat) →
  (n <? length (stored_text outputs key))%nat = false.
Proof.
  intros Htext Hshort. apply Nat.ltb_ge. unfold stored_text.
  destruct (outputs !! key) as [v|] eqn:Hv; [|simpl; lia].
  destruct (Htext _ _ Hv) as [s ->]. by apply Hshort.
Qed.

Lemma shown_layout outputs key n heading c flag flag' :
  text_map outputs →
  shown_if_longer outputs key n heading c flag flag' →
  c = shown heading n (stored_text outputs key)
  ∧ flag' = flag || (n <? length (stored_text outputs key))%nat.
Proof.
  intros Htext [(-> & -> & Hshort)|(s & Hs & Hlen & -> & ->)]; unfold shown.
  - rewrite (stored_text_short _ _ _ Htext Hshort). by rewrite orb_false_r.
  - rewrite (stored_text_Some _ _ _ Hs).
    apply Nat.ltb_lt in Hlen. rewrite Hlen. by rewrite orb_true_r.
Qed.

Lemma wiki_shown_layout outputs c flag flag' :
  text_map outputs →
  wiki_shown outputs c flag flag' →
  c = qa_wikipedia_block (stored_text outputs (py "wikipedia_search"))
  ∧ flag' = flag
            || (50 <? length (stored_text outputs (py "wikipedia_search")))%nat.
Proof.
  intros Htext [(-> & -> & Hshort)|(s & Hs & Hlen & -> & Hcut)];
    unfold qa_wikipedia_block.
  - rewrite (stored_text_short _ _ _ Htext Hshort). by rewrite orb_false_r.
  - rewrite (stored_text_Some _ _ _ Hs).
    apply Nat.ltb_lt in Hlen. rewrite Hlen, orb_true_r.
    destruct Hcut as [[Hle ->]|[Hgt ->]].
    + apply Nat.ltb_ge in Hle. by rewrite Hle.
    + apply Nat.ltb_lt in Hgt. by rewrite Hgt.
Qed.

Lemma fb_arxiv_layout query outputs a hc :
  text_map outputs →
  fb_arxiv query outputs (a, hc)
  = Returns (a ++ fb_research query (stored_text outputs (py "arxiv_summarizer")),
             hc || (contains (py "Found") (stored_text outputs (py "arxiv_summarizer"))
                    && contains (py "papers")
                         (stored_text outputs (py "arxiv_summarizer")))).
Proof.
  intros Htext. unfold fb_arxiv, fb_research, stored_text.
  destruct (outputs !! py "arxiv_summarizer") as [v|] eqn:Hv.
  - destruct (Htext _ _ Hv) as [s ->]. cbn [py_str].
    rewrite !py_in_text, bind_Returns.
    destruct (contains (py "Found") s).
    + cbv beta iota delta [andb]. rewrite bind_Returns.
      destruct (contains (py "papers") s).
      * rewrite _synthesize_arxiv_papers_summary, bind_Returns.
        unfold mret, outcome_ret. rewrite orb_true_r. do 2 f_equal.
        by rewrite <- !app_assoc.
      * unfold mret, outcome_ret. by rewrite orb_false_r, app_nil_r.
    + cbv beta iota delta [andb]. rewrite bind_mret.
      unfold mret, outcome_ret. by rewrite orb_false_r, app_nil_r.
  - replace (contains (py "Found") [] && contains (py "papers") [])
      with false by (vm_compute; reflexivity).
    unfold mret, outcome_ret. by rewrite orb_false_r, app_nil_r.
Qed.

Lemma fb_news_layout query outputs a hc :
  text_map outputs →
  fb_news query outputs (a, hc)
  = Returns (a ++ fb_developments query (stored_text outputs (py "news_fetcher")),
             hc || (50 <? length (stored_text outputs (py "news_fetcher")))%nat).
Proof.
  intros Htext. unfold fb_news, fb_developments, stored_text.
  destruct (outputs !! py "news_fetcher") as [v|] eqn:Hv.
  - destruct (Htext _ _ Hv) as [s ->]. cbn [py_str].
    rewrite py_len_text, bind_Returns.
    destruct (50 <? length s)%nat.
    + rewrite _synthesize_news_summary, bind_Returns.
      unfold mret, outcome_ret. rewrite orb_true_r. do 2 f_equal.
      by rewrite <- !app_assoc.
    + unfold mret, outcome_ret. by rewrite orb_false_r, app_nil_r.
  - cbn [length Nat.ltb Nat.leb]. unfold mret, outcome_ret.
    by rewrite orb_false_r, app_nil_r.
Qed.

Lemma qa_primary_layout_from rs outputs qa a :
  text_map outputs →
  Forall text_output rs →
  qa_primary rs outputs (VStr qa) a
  = Returns (a ++ (qa ++ py "\n\n") ++ QA_HEAD ++ qa_sources outputs
             ++ add_generated (found_all rs) [] ++ QA_FOOT).
Proof.
  intros Htext Hall.
  destruct (qa_primary_text rs outputs qa a Htext Hall)
    as (ca & cw & cn & h1 & h2 & h3 & Ha & Hw & Hn & ->).
  destruct (shown_layout _ _ _ _ _ _ _ Htext Ha) as [-> ->].
  destruct (wiki_shown_layout _ _ _ _ Htext Hw) as [-> ->].
  destruct (shown_layout _ _ _ _ _ _ _ Htext Hn) as [-> ->].
  unfold qa_sources. cbv zeta. rewrite orb_false_l.
  apply (f_equal Returns). rewrite <- !app_assoc. reflexivity.
Qed.

Lemma fallback_layout_from query rs outputs a :
  text_map outputs →
  Forall text_output rs →
  fallback query rs outputs a
  = Returns (a ++ fb_sections query outputs ++ fb_insights query outputs
             ++ add_generated (found_all rs) [] ++ FB_FOOT).
Proof.
  intros Htext Hall. unfold fallback. cbv zeta.
  destruct (fb_wikipedia_text outputs a false Htext) as (c1 & h1 & -> & H1).
  destruct (shown_layout _ _ _ _ _ _ _ Htext H1) as [-> ->].
  rewrite bind_Returns, fb_arxiv_layout, bind_Returns by done.
  rewrite fb_news_layout, bind_Returns by done.
  match goal with |- context [fb_sentiment outputs (?x, ?h)] =>
    destruct (fb_sentiment_text outputs x h Htext) as (c4 & h4 & -> & H4) end.
  destruct (shown_layout _ _ _ _ _ _ _ Htext H4) as [-> ->].
  rewrite bind_Returns. cbv beta iota zeta.
  rewrite (scan_generated_text _ Hall), bind_Returns.
  unfold mret, outcome_ret. apply (f_equal Returns).
  rewrite add_generated_app. rewrite orb_false_l.
  unfold fb_sections, fb_insights, fb_has_content, FB_FOOT. cbv zeta.
  destruct (_ || _ || _ || (20 <? _)%nat);
    rewrite <- ?app_assoc, ?app_nil_l; reflexivity.
Qed.

Lemma not_primary_not_substantial rs qa :
  collect_outputs rs !! py "qa_engine" = Some (VStr qa) →
  (∀ qa', ¬ qa_primary_case rs qa') →
  (300 <? length qa)%nat && negb (startswith qa (py "I'm sorry")) = false.
Proof.
  intros Hqa Hno. apply not_true_is_false. intros Hsub.
  apply andb_true_iff in Hsub as [Hlen Hsorry].
  apply (Hno qa). split; [done|]. split.
  - by apply Nat.ltb_lt.
  - apply startswith_false. by apply negb_true_iff.
Qed.

Lemma synthesize_answer_fallback_layout query rs plan :
  Forall text_output rs →
  collect_outputs rs ≠ ∅ →
  (∀ qa, ¬ qa_primary_case rs qa) →
  synthesize_answer query rs plan
  = Returns (TITLE query ++ fb_quick (collect_outputs rs)
             ++ fb_sections query (collect_outputs rs)
             ++ fb_insights query (collect_outputs rs)
             ++ add_generated (found_all rs) [] ++ FB_FOOT).
Proof.
  intros Hall Hne Hno. pose proof (collect_outputs_text_map _ Hall) as Htext.
  unfold synthesize_answer, fb_quick. cbv zeta. rewrite decide_False by done.
  change (py "# 📖 Answer to: " ++ query ++ py "\n\n") with (TITLE query).
  destruct (collect_outputs rs !! py "qa_engine") as [v|] eqn:Hqa.
  - destruct (Htext _ _ Hqa) as [qa ->].
    rewrite is_substantial_text, bind_Returns.
    rewrite (not_primary_not_substantial _ _ Hqa Hno).
    rewrite fallback_layout_from by done. cbn [py_str].
    apply (f_equal Returns). rewrite <- !app_assoc. reflexivity.
  - rewrite fallback_layout_from by done. cbv beta iota.
    rewrite app_nil_l. reflexivity.
Qed.

(** X6.  In the QA-primary case, when every record's output is a text,
    the answer is the title, the QA text, the opening of the sources
    section, then the papers, the Wikipedia text and the news, each only
    when longer than 50 characters and always in this order (the Wikipedia
    text cut after 800 characters and repeated in full when it is longer),
    the general-knowledge note when none of the three is shown, the
    resource list, and the QA footer. *)
Theorem qa_primary_layout query rs plan qa :
  Forall text_output rs →
  qa_primary_case rs qa →
  synthesize_answer query rs plan
  = Returns (TITLE query ++ (qa ++ py "\n\n") ++ QA_HEAD
             ++ qa_sources (collect_outputs rs)
             ++ add_generated (found_all rs) [] ++ QA_FOOT).
Proof.
  intros Hall Hcase. rewrite (synthesize_answer_qa_primary _ _ _ _ Hcase).
  apply qa_primary_layout_from; [by apply collect_outputs_text_map | done].
Qed.

(** X7.  Outside the QA-primary case, when every record's output is a text
    and some record passes the filter, the answer is the title, the short
    QA answer under "Quick Answer" if there is one, then the sections for
    Wikipedia (longer than 50 characters), papers (a text holding "Found"
    and "papers"), news (longer than 50) and sentiment (longer than 20) in
    this order, the "Key Insights" section exactly when one of these four is
    shown, the resource list, and the fallback footer. *)
Theorem fallback_layout query rs plan :
  Forall text_output rs →
  collect_outputs rs ≠ ∅ →
  (∀ qa, ¬ qa_primary_case rs qa) →
  synthesize_answer query rs plan
  = Returns (TITLE query ++ fb_quick (collect_outputs rs)
             ++ fb_sections query (collect_outputs rs)
             ++ fb_insights query (collect_outputs rs)
             ++ add_generated (found_all rs) [] ++ FB_FOOT).
Proof. apply synthesize_answer_fallback_layout. Qed.

(** X6 on a QA text of 301 characters and a news text of 51. *)
Lemma qa_primary_layout_witness :
  let qa := replicate 301 97 in
  let rs := [ok_record "qa_engine" qa; ok_record "news_fetcher" (replicate 51 98)] in
  synthesize_answer (py "quantum computing") rs ∅
  = Returns (TITLE (py "quantum computing") ++ (qa ++ py "\n\n") ++ QA_HEAD
             ++ qa_sources (collect_outputs rs)
             ++ add_generated (found_all rs) [] ++ QA_FOOT).
Proof.
  intros qa rs. apply (qa_primary_layout (py "quantum computing") rs ∅ qa).
  - repeat constructor; eexists; reflexivity.
  - split; [vm_compute; reflexivity|]. split.
    + unfold qa. rewrite length_replicate. lia.
    + apply startswith_false. vm_compute. reflexivity.
Defined.

(** X7 on a QA text of 300 characters and a sentiment text of 21. *)
Lemma fallback_layout_witness :
  let rs := [ok_record "qa_engine" (replicate 300 97);
             ok_record "sentiment_analyzer" (replicate 21 98)] in
  synthesize_answer (py "quantum computing") rs ∅
  = Returns (TITLE (py "quantum computing") ++ fb_quick (collect_outputs rs)
             ++ fb_sections (py "quantum computing") (collect_outputs rs)
             ++ fb_insights (py "quantum computing") (collect_outputs rs)
             ++ add_generated (found_all rs) [] ++ FB_FOOT).
Proof.
  intros rs. apply (fallback_layout (py "quantum computing") rs ∅).
  - repeat constructor; eexists; reflexivity.
  - apply (collect_outputs_nonempty _ (py "qa_engine") (VStr (replicate 300 97))).
    vm_compute. reflexivity.
  - intros qa (Hqa & Hlen & _).
    assert (Hst : collect_outputs rs !! py "qa_engine"
                  = Some (VStr (replicate 300 97))) by (vm_compute; reflexivity).
    assert (qa = replicate 300 97) as -> by congruence.
    rewrite length_replicate in Hlen. lia.
Defined.

Lemma shown_nil heading n : shown heading n [] = [].
Proof.
  unfold shown. cbn [length].
  by rewrite (proj2 (Nat.ltb_ge n 0)) by lia.
Qed.

Lemma fb_research_nil query : fb_research query [] = [].
Proof.
  unfold fb_research.
  replace (contains (py "Found") []) with false by (vm_compute; reflexivity).
  reflexivity.
Qed.

Lemma fb_developments_nil query : fb_developments query [] = [].
Proof. reflexivity. Qed.

Lemma unrecognised_only_layout query rs plan :
  Forall text_output rs →
  collect_outputs rs ≠ ∅ →
  Forall (fun key => collect_outputs rs !! key = None) RECOGNISED →
  synthesize_answer query rs plan
  = Returns (TITLE query ++ add_generated (found_all rs) [] ++ FB_FOOT).
Proof.
  intros Hall Hne Hnone. unfold RECOGNISED in Hnone.
  apply Forall_cons in Hnone as [Hw Hnone].
  apply Forall_cons in Hnone as [Hx Hnone].
  apply Forall_cons in Hnone as [Hn Hnone].
  apply Forall_cons in Hnone as [Hs Hnone].
  apply Forall_cons in Hnone as [Hq _].
  rewrite synthesize_answer_fallback_layout; try done.
  - unfold fb_quick, fb_sections, fb_insights, fb_has_content. cbv zeta.
    rewrite Hq.
    rewrite (stored_text_None _ _ Hw), (stored_text_None _ _ Hx),
      (stored_text_None _ _ Hn), (stored_text_None _ _ Hs).
    rewrite !shown_nil, fb_research_nil, fb_developments_nil.
    replace (contains (py "Found") []) with false by (vm_compute; reflexivity).
    cbn [length Nat.ltb Nat.leb orb andb]. rewrite !app_nil_l. reflexivity.
  - intros qa (Hqa & _). rewrite Hq in Hqa. discriminate.
Qed.

(** X8.  When some output is stored and every stored output belongs to a
    tool the composer does not look for, none of it is shown: if every
    record's output is a text, the answer is the title, the resource list
    and the fallback footer and nothing else; if some record's output is
    not a text, the composer raises. *)
Theorem unrecognised_tools_not_shown query rs plan :
  collect_outputs rs ≠ ∅ →
  Forall (fun key => collect_outputs rs !! key = None) RECOGNISED →
  (Forall text_output rs →
   synthesize_answer query rs plan
   = Returns (TITLE query ++ add_generated (found_all rs) [] ++ FB_FOOT))
  ∧ (Exists (fun r => ¬ text_output r) rs →
     synthesize_answer query rs plan = Raises).
Proof.
  intros Hne Hnone. split.
  - intros Hall. by apply unrecognised_only_layout.
  - intros Hex. by apply synthesize_answer_non_text.
Qed.

(** X8 on one text record of a chart tool, and on one mapping record of a
    document tool. *)
Lemma unrecognised_tools_not_shown_witness :
  let rs := [ok_record "chart_generator" (py "Chart saved, successfully created chart.png")] in
  let ms := [Result (Some (py "document_parser")) (Some (py "success"))
                    (Some (VDict [py "pages"] (py "{'pages': 3}")))] in
  synthesize_answer (py "quantum computing") rs ∅
  = Returns (TITLE (py "quantum computing")
             ++ add_generated (found_all rs) [] ++ FB_FOOT)
  ∧ synthesize_answer (py "quantum computing") ms ∅ = Raises.
Proof.
  intros rs ms. split.
  - apply (unrecognised_tools_not_shown (py "quantum computing") rs ∅).
    + apply (collect_outputs_nonempty _ (py "chart_generator")
               (VStr (py "Chart saved, successfully created chart.png"))).
      vm_compute. reflexivity.
    + repeat constructor; vm_compute; reflexivity.
    + repeat constructor; eexists; reflexivity.
  - apply (unrecognised_tools_not_shown (py "quantum computing") ms ∅).
    + apply (collect_outputs_nonempty _ (py "document_parser")
               (VDict [py "pages"] (py "{'pages': 3}"))).
      vm_compute. reflexivity.
    + repeat constructor; vm_compute; reflexivity.
    + apply Exists_cons_hd. intros [s Hs]. discriminate Hs.
Defined.

(** ** The section synthesizers *)

(** X9.  The key-insights text is settled by which of the five recognised
    tool identifiers have an entry; the stored values are never read. *)
Theorem key_insights_presence_only (query : pystr)
    (outputs1 outputs2 : gmap pystr pyval) :
  Forall (fun key => has_key key outputs1 = has_key key outputs2) RECOGNISED →
  _generate_key_insights query outputs1 = _generate_key_insights query outputs2.
Proof.
  intros Hsame. unfold RECOGNISED in Hsame.
  apply Forall_cons in Hsame as [Hw Hsame].
  apply Forall_cons in Hsame as [Hx Hsame].
  apply Forall_cons in Hsame as [Hn Hsame].
  apply Forall_cons in Hsame as [Hs Hsame].
  apply Forall_cons in Hsame as [Hq _].
  unfold _generate_key_insights. by rewrite Hw, Hx, Hn, Hs, Hq.
Qed.

(** X9 on a text entry and a mapping entry for the same tool. *)
Lemma key_insights_presence_only_witness :
  _generate_key_insights (py "quantum computing")
    (<[py "news_fetcher" := VStr (py "**Title** Qubits")]> ∅)
  = _generate_key_insights (py "quantum computing")
      (<[py "news_fetcher" := VDict [py "articles"] (py "{'articles': []}")]> ∅).
Proof.
  apply key_insights_presence_only.
  repeat constructor; vm_compute; reflexivity.
Defined.

Lemma occurs_mid (needle a b : pystr) : occurs needle (a ++ needle ++ b).
Proof. apply occurs_here. Qed.

Ltac reflect_marker H :=
  first [apply contains_occurs in H | apply contains_false in H].

(** X10.  For a text the paper synthesizer returns a paragraph that names
    the query: the placeholder paragraph when the text holds "Sample
    Paper", and otherwise one intro line followed by one bullet for each
    line of the text that starts with "**" once stripped, in order, showing
    the stripped line; with no such line the intro stands alone. *)
Theorem arxiv_papers_on_text query s :
  ∃ t, _synthesize_arxiv_papers query (VStr s) = Returns t
    ∧ occurs query t
    ∧ (occurs (py "Sample Paper") s → t = MOCK_PAPERS query)
    ∧ (¬ occurs (py "Sample Paper") s →
       t = py "Found relevant academic research on **" ++ query ++ py "**:\n\n"
           ++ bullets (paper_lines s))
    ∧ (¬ occurs (py "Sample Paper") s →
       Forall (fun line => ¬ py "**" `prefix_of` strip line) (split_lines s) →
       t = py "Found relevant academic research on **" ++ query ++ py "**:\n\n").
Proof.
  exists (arxiv_summary query s).
  split; [apply _synthesize_arxiv_papers_summary|].
  unfold arxiv_summary.
  destruct (contains (py "Sample Paper") s) eqn:Hm; reflect_marker Hm.
  - split; [unfold MOCK_PAPERS; rewrite app_assoc; apply occurs_mid|].
    split; [done|]. split; intros Hno; by destruct Hno.
  - split; [apply occurs_mid|]. split; [intros Hyes; by destruct Hm|].
    split; [done|]. intros _ Hnone.
    replace (paper_lines s) with (@nil pystr); [by rewrite app_nil_r|].
    unfold paper_lines. symmetry.
    induction Hnone as [|l ls Hl _ IH]; [done|].
    cbn [List.filter]. apply startswith_false in Hl. by rewrite Hl.
Qed.

(** X11.  For a text the news synthesizer returns a paragraph that names
    the query: the "no recent news" paragraph when the text holds "No
    recent news" or is shorter than 100 characters, and otherwise one intro
    line followed by one bullet for each line that holds "**Article" or
    "**Title", in order, showing the stripped line. *)
Theorem news_on_text query s :
  ∃ t, _synthesize_news query (VStr s) = Returns t
    ∧ occurs query t
    ∧ (occurs (py "No recent news") s ∨ (length s < 100)%nat → t = NO_NEWS query)
    ∧ (¬ (occurs (py "No recent news") s ∨ (length s < 100)%nat) →
       t = py "Recent news coverage on **" ++ query ++ py "**:\n\n"
           ++ bullets (news_lines s)).
Proof.
  exists (news_summary query s).
  split; [apply _synthesize_news_summary|].
  unfold news_summary.
  destruct (contains (py "No recent news") s) eqn:Hm; reflect_marker Hm;
    [|destruct (length s <? 100)%nat eqn:Hl;
      [apply Nat.ltb_lt in Hl|apply Nat.ltb_ge in Hl]];
    cbv beta iota delta [orb].
  - split; [apply occurs_mid|]. split; [done|]. intros Hno. destruct Hno. tauto.
  - split; [apply occurs_mid|]. split; [done|]. intros Hno. destruct Hno. tauto.
  - split; [apply occurs_mid|]. split; [|done]. intros [Hyes|Hlt]; [done|lia].
Qed.

(** X10 on a list of two papers. *)
Lemma arxiv_papers_on_text_witness :
  let s := py "Found 2 papers:\n  **Qubits at scale** \nby A. Author\n**Error correction**" in
  ∃ t, _synthesize_arxiv_papers (py "quantum computing") (VStr s) = Returns t
    ∧ t = py "Found relevant academic research on **" ++ py "quantum computing"
          ++ py "**:\n\n" ++ bullets (paper_lines s).
Proof.
  intros s.
  destruct (arxiv_papers_on_text (py "quantum computing") s)
    as (t & Hret & _ & _ & Hlist & _).
  exists t. split; [exact Hret|]. apply Hlist.
  apply contains_false. vm_compute. reflexivity.
Defined.

(** X11 on a text of fewer than 100 characters. *)
Lemma news_on_text_witness :
  let s := py "**Title** Qubits in the news, a text that is longer than fifty characters" in
  ∃ t, _synthesize_news (py "quantum computing") (VStr s) = Returns t
    ∧ t = NO_NEWS (py "quantum computing").
Proof.
  intros s.
  destruct (news_on_text (py "quantum computing") s) as (t & Hret & _ & Hshort & _).
  exists t. split; [exact Hret|]. apply Hshort. right.
  apply Nat.ltb_lt. vm_compute. reflexivity.
Defined.

(** ** The summary composer *)





Lemma successful_tools_without_output (rs : list record) :
  successful_tools (without_output <$> rs) = successful_tools rs.
Proof.
  unfold successful_tools. induction rs as [|r rs IH]; [done|].
  rewrite fmap_cons, !filter_cons.
  destruct (decide (succeeded r)) as [Hs|Hs].
  - rewrite decide_True by exact Hs. rewrite !fmap_cons. by rewrite IH.
  - rewrite decide_False by exact Hs. exact IH.
Qed.

(** X13.  The summary reads the tool identifier and the status of each
    record and nothing else: without the outputs it is the same. *)
Theorem summary_ignores_outputs query (rs : list record) :
  create_executive_summary query (without_output <$> rs)
  = create_executive_summary query rs.
Proof.
  unfold create_executive_summary. by rewrite successful_tools_without_output.
Qed.

Lemma successful_tools_nil (rs : list record) :
  successful_tools rs = [] ↔ Forall (fun r => ¬ succeeded r) rs.
Proof.
  unfold successful_tools. split.
  - intros Hnil. apply fmap_nil_inv in Hnil.
    apply Forall_forall. intros r Hin Hs.
    assert (Hin' : r ∈ filter succeeded rs) by (by apply list_elem_of_filter).
    rewrite Hnil in Hin'. by apply elem_of_nil in Hin'.
  - intros Hall. induction Hall as [|r rs Hr _ IH]; [done|].
    by rewrite filter_cons_False.
Qed.

Lemma summary_fixed_iff query (rs : list record) :
  create_executive_summary query rs
  = py "No results could be generated for this query."
  ↔ Forall (fun r => ¬ succeeded r) rs.
Proof.
  rewrite <- successful_tools_nil. unfold create_executive_summary.
  generalize (successful_tools rs). intros l.
  destruct l as [|t ts]; [done|].
  split; [|done]. cbv beta iota zeta. intros Heq. exfalso. revert Heq.
  repeat match goal with |- context [bool_decide ?P] => destruct (bool_decide P) end;
    rewrite <- ?app_assoc; intros Heq; apply (f_equal (take 1)) in Heq;
    vm_compute in Heq; discriminate.
Qed.

(** X14.  The summary is the fixed "no results" sentence exactly when no
    record has status "success". *)
Theorem summary_no_results_iff query (rs : list record) :
  create_executive_summary query rs
  = py "No results could be generated for this query."
  ↔ Forall (fun r => ¬ succeeded r) rs.
Proof. apply summary_fixed_iff. Qed.

Lemma none_succeeded_none_kept (rs : list record) :
  Forall (fun r => ¬ succeeded r) rs → collect_outputs rs = ∅.
Proof.
  intros Hall. apply collect_outputs_empty.
  eapply Forall_impl; [exact Hall|]. intros r Hs [? _]. done.
Qed.

(** X17.  Whenever the summary is the "no results" sentence, the answer
    composer returns the fixed notice for the same records, whatever their
    outputs are. *)
Theorem summary_no_results_answer_notice query query' (rs : list record) plan :
  create_executive_summary query rs
  = py "No results could be generated for this query." →
  synthesize_answer query' rs plan = Returns NO_RESULTS.
Proof.
  intros Hsum. apply summary_fixed_iff in Hsum.
  by apply synthesize_answer_no_outputs, none_succeeded_none_kept.
Qed.

(** X17 on two failed records, one of them with a mapping output. *)
Lemma summary_no_results_answer_notice_witness :
  let rs := [failed_record "wikipedia_search" (py "timeout");
             Result (Some (py "document_parser")) (Some (py "failure"))
                    (Some (VDict [] (py "{}")))] in
  synthesize_answer (py "quantum computing") rs ∅ = Returns NO_RESULTS.
Proof.
  intros rs.
  apply (summary_no_results_answer_notice (py "quantum computing")
           (py "quantum computing") rs ∅).
  vm_compute. reflexivity.
Defined.

(** ** The request handler *)

Lemma summary_none_succeeded query (rs : list record) :
  Forall (fun r => ¬ succeeded r) rs →
  create_executive_summary query rs
  = py "No results could be generated for this query.".
Proof.
  intros Hall. apply successful_tools_nil in Hall.
  unfold create_executive_summary. by rewrite Hall.
Qed.

(** X15.  The handler answers with status 500 exactly when the orchestrator
    raises, or its records make the answer composer raise: some record
    passes the outcome filter and some record's output is not a text. *)
Theorem process_query_error_iff
    (orchestrate : pystr → nat → outcome orchestration) (query : pystr) :
  process_query orchestrate query = Error500
  ↔ orchestrate query 3%nat = Raises
    ∨ ∃ result, orchestrate query 3%nat = Returns result
        ∧ collect_outputs (default [] (o_execution_results result)) ≠ ∅
        ∧ Exists (fun r => ¬ text_output r)
                 (default [] (o_execution_results result)).
Proof.
  unfold process_query. cbv zeta.
  destruct (orchestrate query 3%nat) as [result|]; [rewrite bind_Returns|].
  - destruct (synthesize_answer query _ _) as [answer|] eqn:Hsyn.
    + rewrite bind_Returns. split; [done|].
      intros [?|(result' & [= <-] & Hne & Hex)]; [done|].
      assert (Hr : synthesize_answer query
                     (default [] (o_execution_results result))
                     (default ∅ (o_plan result)) = Raises)
        by by apply raises_iff_non_text.
      congruence.
    + rewrite bind_Raises. split; [|done]. intros _. right.
      exists result. split; [done|]. by apply raises_iff_non_text in Hsyn.
  - rewrite bind_Raises. split; [by left | done].
Qed.

(** X16.  When the orchestrator returns and none of its records has status
    "success" (or it hands back no records at all), the handler still
    replies with status "success": the answer is the fixed notice, the
    summary the fixed "no results" sentence, and records, plan and context
    are passed through, an absent plan as the empty list. *)
Theorem process_query_nothing_succeeded
    (orchestrate : pystr → nat → outcome orchestration) (query : pystr)
    (result : orchestration) :
  orchestrate query 3%nat = Returns result →
  Forall (fun r => ¬ succeeded r) (default [] (o_execution_results result)) →
  process_query orchestrate query
  = Ok200 (Reply (py "success") query
             (match o_plan result with Some p => PlanOf p | None => PlanEmptyList end)
             (default [] (o_execution_results result))
             NO_RESULTS
             (py "No results could be generated for this query.")
             (default ∅ (o_context result))).
Proof.
  intros Horch Hall. unfold process_query. cbv zeta.
  rewrite Horch, bind_Returns.
  rewrite synthesize_answer_no_outputs by (by apply none_succeeded_none_kept).
  rewrite bind_Returns. by rewrite summary_none_succeeded.
Qed.

(** X16 on an orchestrator that hands back one failed record and no plan. *)
Lemma process_query_nothing_succeeded_witness :
  let result := Orchestration (Some [failed_record "wikipedia_search" (py "timeout")])
                              None None in
  process_query (fun _ _ => Returns result) (py "quantum computing")
  = Ok200 (Reply (py "success") (py "quantum computing") PlanEmptyList
             [failed_record "wikipedia_search" (py "timeout")]
             NO_RESULTS
             (py "No results could be generated for this query.")
             ∅).
Proof.
  intros result.
  apply (process_query_nothing_succeeded (fun _ _ => Returns result)
           (py "quantum computing") result).
  - reflexivity.
  - repeat constructor. intros Hs. discriminate Hs.
Defined.
